(** * lib/k8s.py: the Kubernetes side of the EKS rolling update

    A shallow embedding of [src/lib/k8s.py].  Every Python function of the
    module becomes a computation in a small state-and-exception monad: the
    state records what the process did to the outside world (API calls, log
    lines, sleeps), the exception side records how a Python call can end
    without returning. *)

From Stdlib Require Import ZArith List String Ascii Bool Lia PeanoNat.
From Stdlib Require Import Permutation.
Import ListNotations.
Open Scope string_scope.
Open Scope list_scope.
Open Scope Z_scope.

(** ** Data model *)

(** One entry of [node.status.conditions]; both fields are Python strings. *)
Record V1NodeCondition := mkCondition {
  type : string;
  status : string
}.

(** The fields of a [V1Node] the module reads: [metadata.name],
    [spec.provider_id] (which the API leaves [None] on a node that no cloud
    provider has initialised) and [status.conditions]. *)
Record V1Node := mkNode {
  metadata_name : string;
  spec_provider_id : option string;
  status_conditions : list V1NodeCondition
}.

(** [kubernetes.client.rest.ApiException]: the fields the module prints. *)
Record ApiException := mkApiException {
  reason : string;
  body : string
}.

(** Modelled from the spec: [config.app_config] is imported by the module but
    is not part of the sources; its keys are the ones the module reads, plus
    the resumed-replica count that the configuration surface of the
    specification lists. *)
Record AppConfig := mkAppConfig {
  K8S_AUTOSCALER_DEPLOYMENT : string;
  K8S_AUTOSCALER_NAMESPACE : string;
  K8S_AUTOSCALER_REPLICAS : Z;
  DRY_RUN : bool;
  GLOBAL_MAX_RETRY : Z;
  GLOBAL_HEALTH_WAIT : Z
}.

(** ** Effects *)

(** How a call can end without a value. *)
Inductive PyErr :=
| TypeError
| UnboundLocalError (var : string)
| PyException (msg : string)
| SystemExit (code : Z)
| ApiError (e : ApiException)
| ValueError (msg : string)
| OverflowError (msg : string)
| OSError (msg : string).

(** An argument of [str.format]. *)
Inductive FmtArg :=
| AStr (s : string)
| AInt (z : Z)
| AExc (e : ApiException).

(** What the process does to the outside world, in order. *)
Inductive Event :=
| LogInfo (fmt : string) (args : list FmtArg)
| ListNode
| PatchDeployment (name namespace : string) (replicas : Z)
| DeleteNode (name : string) (dry_run : bool)
| Sleep (seconds : Z).

Record World := mkWorld {
  list_calls : nat;
  trace : list Event
}.

(** The cluster as the process sees it: the items answered by the i-th
    [list_node] call, and for each mutating call whether the API rejects
    it. *)
Record Cluster := mkCluster {
  list_node_items : nat -> list V1Node;
  patch_rejects : string -> string -> Z -> option ApiException;
  delete_rejects : string -> bool -> option ApiException
}.

(** The [time] module as the process sees it.  A negative sleep length is
    always refused with a [ValueError]; which other lengths [time.sleep]
    refuses (an [OverflowError] or an [OSError] for lengths too large for
    the platform's clock) is for the interpreter and the platform to say:
    [sleep_rejects] gives the error raised for a non-negative length, if
    any. *)
Record Clock := mkClock {
  sleep_rejects : Z -> option PyErr
}.

Inductive Result (A : Type) :=
| Ok (a : A)
| Raise (e : PyErr)
| OutOfFuel.
Arguments Ok {A} a.
Arguments Raise {A} e.
Arguments OutOfFuel {A}.

Definition M (A : Type) : Type := World -> World * Result A.

Definition ret {A} (a : A) : M A := fun w => (w, Ok a).

Definition bind {A B} (m : M A) (k : A -> M B) : M B :=
  fun w =>
    match m w with
    | (w', Ok a) => k a w'
    | (w', Raise e) => (w', Raise e)
    | (w', OutOfFuel) => (w', OutOfFuel)
    end.

Definition raise {A} (e : PyErr) : M A := fun w => (w, Raise e).

Definition out_of_fuel {A} : M A := fun w => (w, OutOfFuel).

Declare Scope py_scope.
Delimit Scope py_scope with py.
Notation "x <- m ;; k" := (bind m (fun x => k))
  (at level 61, m at next level, right associativity) : py_scope.
Notation "m ;; k" := (bind m (fun _ => k))
  (at level 61, right associativity) : py_scope.
Open Scope py_scope.

Definition emit (e : Event) : M unit :=
  fun w => (mkWorld (list_calls w) (trace w ++ [e]), Ok tt).

Definition logger_info (fmt : string) (args : list FmtArg) : M unit :=
  emit (LogInfo fmt args).

(** The error [time.sleep(seconds)] raises instead of sleeping, if any. *)
Definition sleep_error (clock : Clock) (seconds : Z) : option PyErr :=
  if seconds <? 0 then Some (ValueError "sleep length must be non-negative")
  else sleep_rejects clock seconds.

Definition time_sleep (clock : Clock) (seconds : Z) : M unit :=
  match sleep_error clock seconds with
  | Some e => raise e
  | None => emit (Sleep seconds)
  end.

Definition sys_exit {A} (code : Z) : M A := raise (SystemExit code).

(** [try: m except ApiException as e: handler e] *)
Definition try_except {A} (m : M A) (handler : ApiException -> M A) : M A :=
  fun w =>
    match m w with
    | (w', Raise (ApiError e)) => handler e w'
    | r => r
    end.

(** [for x in xs: body], with the local variables the body assigns threaded
    through as [s]. *)
Fixpoint for_in {A S} (xs : list A) (body : A -> S -> M S) (s : S) : M S :=
  match xs with
  | [] => ret s
  | x :: rest => s' <- body x s ;; for_in rest body s'
  end.

(** ** Strings *)

(** [needle in hay] on two Python strings. *)
Fixpoint str_in (needle hay : string) : bool :=
  String.prefix needle hay ||
  match hay with
  | EmptyString => false
  | String _ rest => str_in needle rest
  end.

(** [needle in hay] where [hay] may be [None]: membership in [None] is a
    [TypeError]. *)
Definition py_in (needle : string) (hay : option string) : M bool :=
  match hay with
  | Some s => ret (str_in needle s)
  | None => raise TypeError
  end.

(** [not s] on a Python string. *)
Definition py_not (s : string) : bool :=
  match s with
  | EmptyString => true
  | String _ _ => false
  end.

(** ** The module *)

Definition NodeNotFound : PyErr :=
  PyException "Could not find a k8s node name for that instance id. Exiting".

(** The body of [for k8s_node in k8s_nodes]; [node_name] is the local it
    overwrites. *)
Definition scan_node (instance_id : string) (k8s_node : V1Node) (node_name : string)
  : M string :=
  hit <- py_in instance_id (spec_provider_id k8s_node) ;;
  if hit : bool then
    logger_info "InstanceId {} is node {} in kuberentes land"
      [AStr instance_id; AStr (metadata_name k8s_node)] ;;
    ret (metadata_name k8s_node)
  else ret node_name.

Definition get_node_by_instance_id (k8s_nodes : list V1Node) (instance_id : string)
  : M string :=
  let node_name := "" in
  logger_info "Searching for k8s node name by instance id..." [] ;;
  node_name <- for_in k8s_nodes (scan_node instance_id) node_name ;;
  if py_not node_name then
    logger_info "Could not find a k8s node name for that instance id. Exiting" [] ;;
    raise NodeNotFound
  else ret node_name.

Section Process.

Variable app_config : AppConfig.
Variable cluster : Cluster.
Variable clock : Clock.

Definition api_list_node : M (list V1Node) :=
  fun w =>
    (mkWorld (S (list_calls w)) (trace w ++ [ListNode]),
     Ok (list_node_items cluster (list_calls w))).

Definition api_patch_namespaced_deployment (name namespace : string) (replicas : Z)
  : M unit :=
  emit (PatchDeployment name namespace replicas) ;;
  match patch_rejects cluster name namespace replicas with
  | Some e => raise (ApiError e)
  | None => ret tt
  end.

Definition api_delete_node (name : string) (dry_run : bool) : M unit :=
  emit (DeleteNode name dry_run) ;;
  match delete_rejects cluster name dry_run with
  | Some e => raise (ApiError e)
  | None => ret tt
  end.

Definition get_k8s_nodes : M (list V1Node) :=
  logger_info "Getting k8s nodes..." [] ;;
  items <- api_list_node ;;
  logger_info "Current k8s node count is {}" [AInt (Z.of_nat (List.length items))] ;;
  ret items.

Definition modify_k8s_autoscaler (action : string) : M unit :=
  replicas <-
    (if String.eqb action "pause" then
       logger_info "Pausing k8s autoscaler..." [] ;; ret 0
     else if String.eqb action "resume" then
       logger_info "Resuming k8s autoscaler..." [] ;; ret 2
     else
       logger_info "Invalid k8s autoscaler option" [] ;; sys_exit 1) ;;
  try_except
    (api_patch_namespaced_deployment
       (K8S_AUTOSCALER_DEPLOYMENT app_config)
       (K8S_AUTOSCALER_NAMESPACE app_config)
       replicas ;;
     logger_info "K8s autoscaler modified to replicas: {}" [AInt replicas])
    (fun e =>
       logger_info "Scaling of k8s autoscaler failed. Error code was {}, {}. Exiting."
         [AStr (reason e); AStr (body e)] ;;
       sys_exit 1).

Definition delete_node (node_name : string) : M unit :=
  logger_info "Deleting k8s node {}..." [AStr node_name] ;;
  try_except
    ((if negb (DRY_RUN app_config) then api_delete_node node_name false
      else api_delete_node node_name true) ;;
     logger_info "Node deleted" [])
    (fun e =>
       logger_info "Exception when calling CoreV1Api->delete_node: {}" [AExc e]).

(** The body of the inner [for condition in conditions] of
    [k8s_nodes_ready]; [healthy_nodes] is the flag it may clear. *)
Definition check_condition (node : V1Node) (condition : V1NodeCondition)
  (healthy_nodes : bool) : M bool :=
  if String.eqb (type condition) "Ready" && String.eqb (status condition) "False" then
    logger_info "Node {} is not healthy - Ready: {}"
      [AStr (metadata_name node); AStr (status condition)] ;;
    ret false
  else if String.eqb (type condition) "Ready" && String.eqb (status condition) "True" then
    logger_info "Node {}: Ready" [AStr (metadata_name node)] ;;
    ret healthy_nodes
  else ret healthy_nodes.

(** The [while retry_count < max_retry] loop of [k8s_nodes_ready].  The
    local [healthy_nodes] is unbound ([None]) until the body has run once. *)
Fixpoint nodes_ready_loop (fuel : nat) (max_retry wait retry_count : Z)
  (healthy_nodes : option bool) : M (option bool) :=
  if retry_count <? max_retry then
    match fuel with
    | O => out_of_fuel
    | S fuel' =>
        let healthy_nodes := true in
        let retry_count := retry_count + 1 in
        nodes <- get_k8s_nodes ;;
        healthy_nodes <-
          for_in nodes
            (fun node healthy_nodes =>
               for_in (status_conditions node) (check_condition node) healthy_nodes)
            healthy_nodes ;;
        if healthy_nodes : bool then
          logger_info "All k8s nodes are healthy" [] ;;
          ret (Some healthy_nodes)
        else
          logger_info "Retrying node health..." [] ;;
          time_sleep clock wait ;;
          nodes_ready_loop fuel' max_retry wait retry_count (Some healthy_nodes)
    end
  else ret healthy_nodes.

(** [return x] of a local that may be unbound. *)
Definition return_local {A} (var : string) (x : option A) : M A :=
  match x with
  | Some v => ret v
  | None => raise (UnboundLocalError var)
  end.

Definition k8s_nodes_ready (max_retry wait : Z) : M bool :=
  logger_info "Checking k8s nodes health status..." [] ;;
  let retry_count := 1 in
  healthy_nodes <-
    nodes_ready_loop (Z.to_nat (max_retry - retry_count)) max_retry wait retry_count None ;;
  return_local "healthy_nodes" healthy_nodes.

(** The [while retry_count < max_retry] loop of [k8s_nodes_count]. *)
Fixpoint nodes_count_loop (fuel : nat) (desired_node_count max_retry wait retry_count : Z)
  (nodes_online : option bool) : M (option bool) :=
  if retry_count <? max_retry then
    match fuel with
    | O => out_of_fuel
    | S fuel' =>
        let nodes_online := true in
        let retry_count := retry_count + 1 in
        nodes <- get_k8s_nodes ;;
        logger_info "Current k8s node count is {}" [AInt (Z.of_nat (List.length nodes))] ;;
        if negb (Z.of_nat (List.length nodes) =? desired_node_count) then
          let nodes_online := false in
          logger_info "Waiting for k8s nodes to reach count {}..."
            [AInt desired_node_count] ;;
          time_sleep clock wait ;;
          nodes_count_loop fuel' desired_node_count max_retry wait retry_count
            (Some nodes_online)
        else
          logger_info "Reached desired k8s node count of {}"
            [AInt (Z.of_nat (List.length nodes))] ;;
          ret (Some nodes_online)
    end
  else ret nodes_online.

Definition k8s_nodes_count (desired_node_count max_retry wait : Z) : M bool :=
  logger_info "Checking k8s expected nodes are online after asg scaled up..." [] ;;
  let retry_count := 1 in
  nodes_online <-
    nodes_count_loop (Z.to_nat (max_retry - retry_count)) desired_node_count
      max_retry wait retry_count None ;;
  return_local "nodes_online" nodes_online.

End Process.

(** The initial state of a process: nothing done yet. *)
Definition world0 : World := mkWorld 0 [].

(** ** Snapshots, as the claims speak of them *)

(** A node matches when its provider id is present and contains the
    instance id. *)
Definition matches (instance_id : string) (node : V1Node) : bool :=
  match spec_provider_id node with
  | Some provider_id => str_in instance_id provider_id
  | None => false
  end.

Definition provider_id_present (node : V1Node) : bool :=
  match spec_provider_id node with
  | Some _ => true
  | None => false
  end.

(** The last node of the snapshot that matches, if any. *)
Fixpoint last_match (instance_id : string) (nodes : list V1Node) : option V1Node :=
  match nodes with
  | [] => None
  | node :: rest =>
      match last_match instance_id rest with
      | Some found => Some found
      | None => if matches instance_id node then Some node else None
      end
  end.

(** A condition that counts against health. *)
Definition ready_false (condition : V1NodeCondition) : bool :=
  String.eqb (type condition) "Ready" && String.eqb (status condition) "False".


Definition node_unhealthy (node : V1Node) : bool :=
  existsb ready_false (status_conditions node).

Definition snapshot_healthy (nodes : list V1Node) : bool :=
  forallb (fun node => negb (node_unhealthy node)) nodes.



(** ** Draining *)

Definition DrainFailed : PyErr := PyException "Node not drained properly. Exiting".

Section Drain.

Variable app_config : AppConfig.

(** [subprocess.run(args).returncode]: the child process is outside the
    module, which reads nothing but its exit status. *)
Variable subprocess_run : list string -> M Z.

Definition drain_node (node_name : string) : M unit :=
  logger_info "Draining worker node {}..." [AStr node_name] ;;
  returncode <-
    (if DRY_RUN app_config then
       subprocess_run
         ["kubectl"; "drain"; node_name;
          "--ignore-daemonsets"; "--delete-local-data"; "--dry-run"]
     else
       subprocess_run
         ["kubectl"; "drain"; node_name;
          "--ignore-daemonsets"; "--delete-local-data"]) ;;
  if negb (returncode =? 0) then raise DrainFailed else ret tt.

End Drain.

(** A [kubectl] that succeeds on a dry run only. *)
Definition kubectl_dry_only (args : list string) : M Z :=
  ret (if existsb (String.eqb "--dry-run") args then 0 else 1).

(** ** What a computation does besides logging *)

Definition is_log (e : Event) : bool :=
  match e with
  | LogInfo _ _ => true
  | _ => false
  end.

(** The trace without its log lines: the API calls and the sleeps. *)
Definition effects (t : list Event) : list Event :=
  filter (fun e => negb (is_log e)) t.

(** A computation that lists no nodes and does nothing but log. *)
Definition quiet {A} (m : M A) : Prop :=
  forall w,
    list_calls (fst (m w)) = list_calls w
    /\ effects (trace (fst (m w))) = effects (trace w).



(** ** Polling, as the claims speak of it *)

(** The number of times the body of [while retry_count < max_retry] can run
    when [retry_count] starts at 1. *)
Definition budget (max_retry : Z) : nat := Z.to_nat (max_retry - 1).

(** The first call number, among the [k] calls numbered from [base], whose
    snapshot satisfies [converged]. *)
Fixpoint first_converged (converged : list V1Node -> bool) (items : nat -> list V1Node)
  (k base : nat) : option nat :=
  match k with
  | O => None
  | S k' =>
      if converged (items base) then Some base
      else first_converged converged items k' (S base)
  end.

(** The number of attempts a poll of budget [k] can make: a sleep that
    raises ends the poll at its first attempt. *)
Definition attempts (nap : option PyErr) (k : nat) : nat :=
  match nap with
  | None => k
  | Some _ => match k with O => O | S _ => 1%nat end
  end.

(** What a poll of budget [k] returns, given the error of its sleep (if
    any), the name of its flag and the number of its first converging
    attempt (if any). *)
Definition poll_result (nap : option PyErr) (var : string) (k : nat)
  (first : option nat) : Result bool :=
  match first with
  | Some _ => Ok true
  | None =>
      match k with
      | O => Raise (UnboundLocalError var)
      | S _ => match nap with None => Ok false | Some e => Raise e end
      end
  end.

(** The test of [k8s_nodes_count]: the snapshot has exactly the desired
    length. *)
Definition count_reached (desired_node_count : Z) (nodes : list V1Node) : bool :=
  Z.of_nat (List.length nodes) =? desired_node_count.

(** The number of [list_node] calls a computation makes from [w]. *)
Definition fetches {A} (m : M A) (w : World) : nat :=
  (list_calls (fst (m w)) - list_calls w)%nat.

(** The length of the i-th snapshot a computation started in [w] is
    given. *)
Definition listed_length (cluster : Cluster) (w : World) (i : nat) : Z :=
  Z.of_nat (List.length (list_node_items cluster (list_calls w + i)%nat)).

(** ** Concrete snapshots *)

Definition node_a : V1Node := mkNode "node-a" (Some "aws:///i-111") [].
Definition node_b : V1Node := mkNode "node-b" (Some "aws:///i-222") [].

(** A second node whose provider id contains [i-222]. *)
Definition node_c : V1Node := mkNode "node-c" (Some "aws:///eu-west-1a/i-2222") [].

(** A node the cloud provider has not initialised: no provider id. *)
Definition node_bare : V1Node := mkNode "node-bare" None [].

(** A node object with the empty string as name. *)
Definition node_nameless : V1Node := mkNode "" (Some "aws:///i-222") [].

(** A configuration whose resumed-replica count is 3. *)
Definition config_three : AppConfig :=
  mkAppConfig "cluster-autoscaler" "kube-system" 3 false 3 5.

Definition not_found : ApiException := mkApiException "Not Found" "nodes not found".

(** A cluster that accepts every call and has no nodes. *)
Definition cluster_empty : Cluster :=
  mkCluster (fun _ => []) (fun _ _ _ => None) (fun _ _ => None).

(** A cluster that rejects every mutating call. *)
Definition cluster_rejecting : Cluster :=
  mkCluster (fun _ => []) (fun _ _ _ => Some not_found) (fun _ _ => Some not_found).

(** A clock that accepts every non-negative sleep length. *)
Definition clock_any : Clock := mkClock (fun _ => None).

(** A clock that refuses the lengths beyond 64-bit nanoseconds. *)
Definition clock_int64 : Clock :=
  mkClock (fun seconds =>
             if 9223372036 <? seconds
             then Some (OverflowError "timestamp too large to convert to C _PyTime_t")
             else None).

(** A cluster that always lists the same four nodes. *)
Definition cluster_four : Cluster :=
  mkCluster (fun _ => [node_a; node_b; node_c; node_bare])
    (fun _ _ _ => None) (fun _ _ => None).

(** A cluster that lists three nodes at first and four from the second
    listing on. *)
Definition cluster_growing : Cluster :=
  mkCluster
    (fun i => match i with
              | O => [node_a; node_b; node_c]
              | S _ => [node_a; node_b; node_c; node_bare]
              end)
    (fun _ _ _ => None) (fun _ _ => None).

(** A node that reports Ready twice: False first, True last. *)
Definition node_flapping : V1Node :=
  mkNode "node-f" (Some "aws:///i-333")
    [mkCondition "Ready" "False"; mkCondition "Ready" "True"].

Definition cluster_flapping : Cluster :=
  mkCluster (fun _ => [node_flapping]) (fun _ _ _ => None) (fun _ _ => None).

(** A node that reports conditions, none of type Ready. *)
Definition node_pressure : V1Node :=
  mkNode "node-p" (Some "aws:///i-444")
    [mkCondition "MemoryPressure" "False"; mkCondition "DiskPressure" "True"].

Definition cluster_no_ready : Cluster :=
  mkCluster (fun _ => [node_a; node_pressure]) (fun _ _ _ => None) (fun _ _ => None).

(** Two clusters that list the same two nodes in opposite orders. *)
Definition cluster_flapping_first : Cluster :=
  mkCluster (fun _ => [node_flapping; node_a]) (fun _ _ _ => None) (fun _ _ => None).

Definition cluster_flapping_last : Cluster :=
  mkCluster (fun _ => [node_a; node_flapping]) (fun _ _ _ => None) (fun _ _ => None).

(** ** Substring test *)

Lemma prefix_append (needle hay : string) :
  String.prefix needle hay = true <-> exists rest, hay = String.append needle rest.
Proof.
  revert hay; induction needle as [|c needle IH]; intros hay; simpl.
  - split; [intros _; exists hay; reflexivity | destruct hay; reflexivity].
  - destruct hay as [|d hay]; simpl.
    + split; [discriminate | intros [rest H]; discriminate].
    + destruct (Ascii.ascii_dec c d) as [->|Hne].
      * rewrite IH. split; intros [rest H]; exists rest; congruence.
      * split; [discriminate | intros [rest H]; congruence].
Qed.

(** [str_in] is Python's substring test: the needle occurs somewhere in the
    haystack. *)
Lemma str_in_spec (needle hay : string) :
  str_in needle hay = true <->
  exists before after, hay = String.append before (String.append needle after).
Proof.
  induction hay as [|c hay IH]; cbn [str_in].
  - rewrite orb_false_r, prefix_append. split.
    + intros [rest H]. exists EmptyString, rest. exact H.
    + intros [before [after H]]. destruct before; simpl in H; [|discriminate].
      exists after. exact H.
  - rewrite orb_true_iff, prefix_append, IH. split.
    + intros [[rest H]|[before [after H]]].
      * exists EmptyString, rest. exact H.
      * exists (String c before), after. simpl. congruence.
    + intros [before [after H]]. destruct before as [|d before]; simpl in H.
      * left. exists after. exact H.
      * right. exists before, after. congruence.
Qed.

(** ** The scan of [get_node_by_instance_id] *)

Lemma last_match_matches (instance_id : string) (nodes : list V1Node) (node : V1Node) :
  last_match instance_id nodes = Some node ->
  In node nodes /\ matches instance_id node = true.
Proof.
  induction nodes as [|n rest IH]; simpl; [discriminate|].
  destruct (last_match instance_id rest) as [found|].
  - intros H. destruct (IH H) as [Hin Hm]. auto.
  - destruct (matches instance_id n) eqn:Hm; [|discriminate].
    intros H; injection H as <-. auto.
Qed.

Lemma last_match_none (instance_id : string) (nodes : list V1Node) :
  last_match instance_id nodes = None <->
  forall node, In node nodes -> matches instance_id node = false.
Proof.
  induction nodes as [|n rest IH]; simpl.
  - split; [intros _ node [] | reflexivity].
  - destruct (last_match instance_id rest) as [found|] eqn:Hl.
    + split; [discriminate|]. intros H.
      destruct (last_match_matches _ _ _ Hl) as [Hin Hm].
      rewrite (H found (or_intror Hin)) in Hm. discriminate.
    + destruct (matches instance_id n) eqn:Hm.
      * split; [discriminate|]. intros H. rewrite (H n (or_introl eq_refl)) in Hm.
        discriminate.
      * split; [|reflexivity]. intros _ node [<-|Hin]; [exact Hm|].
        apply IH; [reflexivity | exact Hin].
Qed.

(** The last match of a snapshot split around a matching node with no match
    after it is that node. *)
Lemma last_match_split (instance_id : string) (before after : list V1Node)
  (node : V1Node) :
  matches instance_id node = true ->
  (forall later, In later after -> matches instance_id later = false) ->
  last_match instance_id (before ++ node :: after) = Some node.
Proof.
  intros Hm Hafter. induction before as [|n before IH]; simpl.
  - rewrite (proj2 (last_match_none _ _) Hafter), Hm. reflexivity.
  - rewrite IH. reflexivity.
Qed.

(** The last match splits the snapshot in two, with no match after it. *)
Lemma last_match_decompose (instance_id : string) (nodes : list V1Node)
  (found : V1Node) :
  last_match instance_id nodes = Some found ->
  exists before after,
    nodes = before ++ found :: after
    /\ forall later, In later after -> matches instance_id later = false.
Proof.
  induction nodes as [|n rest IH]; cbn [last_match]; [discriminate|].
  destruct (last_match instance_id rest) as [f|] eqn:Hl.
  - intros H; injection H as <-.
    destruct (IH eq_refl) as [before [after [Hsplit Hafter]]].
    exists (n :: before), after. rewrite Hsplit. auto.
  - destruct (matches instance_id n); [|discriminate].
    intros H; injection H as <-.
    exists [], rest. split; [reflexivity|]. apply last_match_none. exact Hl.
Qed.

(** One iteration on a node whose provider id is present. *)
Lemma scan_node_present (instance_id provider_id : string) (n : V1Node)
  (node_name : string) (w : World) :
  spec_provider_id n = Some provider_id ->
  scan_node instance_id n node_name w =
    if str_in instance_id provider_id then
      (mkWorld (list_calls w)
         (trace w ++ [LogInfo "InstanceId {} is node {} in kuberentes land"
                        [AStr instance_id; AStr (metadata_name n)]]),
       Ok (metadata_name n))
    else (w, Ok node_name).
Proof.
  intros Hp. unfold scan_node, py_in, bind, ret, logger_info, emit. rewrite Hp.
  destruct (str_in instance_id provider_id); reflexivity.
Qed.

(** On a snapshot whose provider ids are all present the loop ends with the
    name of the last match, or with the initial value when nothing
    matches; it lists no nodes. *)
Lemma scan_present (instance_id : string) (nodes : list V1Node) :
  forallb provider_id_present nodes = true ->
  forall (node_name : string) (w : World),
    exists w',
      for_in nodes (scan_node instance_id) node_name w =
        (w', Ok match last_match instance_id nodes with
                 | Some node => metadata_name node
                 | None => node_name
                 end)
      /\ list_calls w' = list_calls w.
Proof.
  induction nodes as [|n rest IH]; simpl; intros Hall node_name w.
  - exists w. split; reflexivity.
  - apply andb_true_iff in Hall as [Hn Hrest].
    unfold provider_id_present in Hn. unfold matches.
    destruct (spec_provider_id n) as [provider_id|] eqn:Hp; [|discriminate].
    unfold bind. rewrite (scan_node_present _ _ _ _ _ Hp).
    destruct (str_in instance_id provider_id).
    + match goal with
      | |- context [for_in rest _ ?name ?w1] =>
          destruct (IH Hrest name w1) as [w' [Hrun Hcalls]]
      end.
      exists w'. rewrite Hrun. destruct (last_match instance_id rest); auto.
    + destruct (IH Hrest node_name w) as [w' [Hrun Hcalls]].
      exists w'. rewrite Hrun. destruct (last_match instance_id rest); auto.
Qed.

(** A node without provider id stops the loop with a [TypeError], whatever
    comes after it. *)
Lemma scan_absent (instance_id : string) (before after : list V1Node) (node : V1Node) :
  forallb provider_id_present before = true ->
  spec_provider_id node = None ->
  forall (node_name : string) (w : World),
    for_in (before ++ node :: after) (scan_node instance_id) node_name w =
      (fst (for_in before (scan_node instance_id) node_name w), Raise TypeError).
Proof.
  induction before as [|n before IH]; simpl; intros Hall Hnone node_name w.
  - unfold bind, scan_node, py_in, raise. rewrite Hnone. reflexivity.
  - apply andb_true_iff in Hall as [Hn Hrest].
    unfold provider_id_present in Hn.
    destruct (spec_provider_id n) as [provider_id|] eqn:Hp; [|discriminate].
    unfold bind. rewrite (scan_node_present _ _ _ _ _ Hp).
    destruct (str_in instance_id provider_id); apply IH; assumption.
Qed.

(** The snapshot splits at its first node without provider id. *)
Lemma first_absent_split (nodes : list V1Node) :
  (exists node, In node nodes /\ spec_provider_id node = None) ->
  exists before node after,
    nodes = before ++ node :: after
    /\ forallb provider_id_present before = true
    /\ spec_provider_id node = None.
Proof.
  induction nodes as [|n rest IH]; intros [node [Hin Hnone]]; [destruct Hin|].
  destruct (spec_provider_id n) as [provider_id|] eqn:Hp.
  - destruct Hin as [->|Hin]; [congruence|].
    destruct IH as [before [absent [after [Heq [Hall Habs]]]]]; [eauto|].
    exists (n :: before), absent, after. subst rest. simpl.
    unfold provider_id_present at 1. rewrite Hp. auto.
  - exists [], n, rest. auto.
Qed.

(** What [get_node_by_instance_id] answers on a snapshot whose provider ids
    are all present. *)
Lemma get_node_by_instance_id_present (nodes : list V1Node) (instance_id : string)
  (w : World) :
  forallb provider_id_present nodes = true ->
  snd (get_node_by_instance_id nodes instance_id w) =
    match last_match instance_id nodes with
    | Some node =>
        if py_not (metadata_name node) then Raise NodeNotFound
        else Ok (metadata_name node)
    | None => Raise NodeNotFound
    end.
Proof.
  intros Hall. unfold get_node_by_instance_id, bind at 1, logger_info at 1, emit.
  unfold bind at 1.
  match goal with
  | |- context [for_in nodes _ ?name ?w1] =>
      destruct (scan_present instance_id nodes Hall name w1) as [w' [Hrun _]]
  end.
  rewrite Hrun.
  destruct (last_match instance_id nodes) as [node|]; [|reflexivity].
  destruct (metadata_name node); reflexivity.
Qed.

Lemma py_not_false (s : string) : s <> "" -> py_not s = false.
Proof. destruct s; [congruence | reflexivity]. Qed.

(** ** Node resolver *)

(** C5, as amended.  On a snapshot in which every provider id is present,
    [get_node_by_instance_id] returns the name of the last node, in snapshot
    order, whose provider id contains the instance id, provided that name is
    not the empty string.  The nodes before it may or may not match: with
    two or more matches the last one wins, with exactly one match that one
    is returned. *)
Theorem last_match_wins (nodes before after : list V1Node) (node : V1Node)
  (instance_id : string) (w : World) :
  forallb provider_id_present nodes = true ->
  nodes = before ++ node :: after ->
  matches instance_id node = true ->
  (forall later, In later after -> matches instance_id later = false) ->
  metadata_name node <> "" ->
  snd (get_node_by_instance_id nodes instance_id w) = Ok (metadata_name node).
Proof.
  intros Hall Hsplit Hm Hafter Hname.
  rewrite (get_node_by_instance_id_present _ _ _ Hall), Hsplit.
  rewrite (last_match_split _ _ _ _ Hm Hafter), (py_not_false _ Hname).
  reflexivity.
Qed.

Lemma last_match_wins_witness :
  snd (get_node_by_instance_id [node_c; node_a; node_b] "i-222" world0) = Ok "node-b".
Proof.
  apply (last_match_wins [node_c; node_a; node_b] [node_c; node_a] [] node_b
           "i-222" world0).
  - reflexivity.
  - reflexivity.
  - reflexivity.
  - intros later [].
  - discriminate.
Defined.

(** C5 fails as stated.  Two nodes match [i-222] and [node-b] is the last of
    them, yet a third node without provider id makes the call end in a
    [TypeError]; and when the last match carries the empty name the call
    ends in [NodeNotFound] instead of returning that name. *)
Lemma last_match_wins_unrestricted_fails :
  (matches "i-222" node_c = true
   /\ matches "i-222" node_b = true
   /\ matches "i-222" node_bare = false
   /\ snd (get_node_by_instance_id [node_c; node_b; node_bare] "i-222" world0)
      <> Ok (metadata_name node_b)
   /\ snd (get_node_by_instance_id [node_c; node_b; node_bare] "i-222" world0)
      = Raise TypeError)
  /\ (matches "i-222" node_b = true
      /\ matches "i-222" node_nameless = true
      /\ snd (get_node_by_instance_id [node_b; node_nameless] "i-222" world0)
         <> Ok (metadata_name node_nameless)
      /\ snd (get_node_by_instance_id [node_b; node_nameless] "i-222" world0)
         = Raise NodeNotFound).
Proof.
  repeat split; try reflexivity; vm_compute; discriminate.
Qed.

(** C6, as amended.  On a snapshot, empty or not, in which every provider id
    is present and the last matching node, if there is one, has a non-empty
    name, [get_node_by_instance_id] ends in [NodeNotFound] exactly when no
    node matches, and returns a name as soon as one node matches. *)
Theorem node_not_found_iff_no_match (nodes : list V1Node) (instance_id : string)
  (w : World) :
  forallb provider_id_present nodes = true ->
  (forall before node after,
     nodes = before ++ node :: after ->
     matches instance_id node = true ->
     (forall later, In later after -> matches instance_id later = false) ->
     metadata_name node <> "") ->
  (snd (get_node_by_instance_id nodes instance_id w) = Raise NodeNotFound <->
   forall node, In node nodes -> matches instance_id node = false)
  /\ ((exists node, In node nodes /\ matches instance_id node = true) ->
      exists name, snd (get_node_by_instance_id nodes instance_id w) = Ok name).
Proof.
  intros Hall Hname.
  rewrite (get_node_by_instance_id_present _ _ _ Hall).
  destruct (last_match instance_id nodes) as [found|] eqn:Hl.
  - destruct (last_match_matches _ _ _ Hl) as [Hin Hm].
    destruct (last_match_decompose _ _ _ Hl) as [before [after [Hsplit Hafter]]].
    rewrite (py_not_false _ (Hname before found after Hsplit Hm Hafter)). split.
    + split; [discriminate|]. intros Hnone. rewrite (Hnone found Hin) in Hm.
      discriminate.
    + intros _. exists (metadata_name found). reflexivity.
  - pose proof (proj1 (last_match_none _ _) Hl) as Hnone. split.
    + split; [intros _; exact Hnone | reflexivity].
    + intros [node [Hin Hm]]. rewrite (Hnone node Hin) in Hm. discriminate.
Qed.

Lemma node_not_found_iff_no_match_witness :
  (exists name,
     snd (get_node_by_instance_id [node_nameless; node_a; node_b] "i-222" world0)
     = Ok name)
  /\ snd (get_node_by_instance_id [node_a] "i-222" world0) = Raise NodeNotFound.
Proof.
  split.
  - apply (node_not_found_iff_no_match [node_nameless; node_a; node_b] "i-222" world0).
    + reflexivity.
    + intros before node after Hsplit Hm Hafter.
      destruct before as [|n1 [|n2 [|n3 [|n4 before]]]]; cbn [app] in Hsplit;
        try discriminate Hsplit.
      * injection Hsplit as <- <-.
        specialize (Hafter node_b ltac:(cbn [In]; auto)). discriminate Hafter.
      * injection Hsplit as _ <- <-. discriminate Hm.
      * injection Hsplit as _ _ <- <-. discriminate.
    + exists node_b. split; [cbn [In]; auto | reflexivity].
  - apply (node_not_found_iff_no_match [node_a] "i-222" world0).
    + reflexivity.
    + intros before node after Hsplit Hm Hafter.
      destruct before as [|n1 [|n2 before]]; cbn [app] in Hsplit;
        try discriminate Hsplit.
      injection Hsplit as <- <-. discriminate Hm.
    + intros node [<-|[]]. reflexivity.
Defined.

(** C6 fails as stated.  In a snapshot whose only node has no provider id
    nothing matches, yet the call ends in a [TypeError], not in
    [NodeNotFound]; and in a snapshot whose only node matches but carries
    the empty name the call ends in [NodeNotFound] although one node
    matches. *)
Lemma node_not_found_iff_unrestricted_fails :
  ((forall node, In node [node_bare] -> matches "i-222" node = false)
   /\ snd (get_node_by_instance_id [node_bare] "i-222" world0) <> Raise NodeNotFound
   /\ snd (get_node_by_instance_id [node_bare] "i-222" world0) = Raise TypeError)
  /\ ((exists node, In node [node_nameless] /\ matches "i-222" node = true)
      /\ snd (get_node_by_instance_id [node_nameless] "i-222" world0)
         = Raise NodeNotFound).
Proof.
  split; [split; [|split]|split].
  - intros node [<-|[]]. reflexivity.
  - vm_compute. discriminate.
  - reflexivity.
  - exists node_nameless. split; [left|]; reflexivity.
  - reflexivity.
Qed.

(** C10.  A snapshot that holds a node without provider id makes
    [get_node_by_instance_id] end in a [TypeError]: the node is neither
    skipped nor reported as [NodeNotFound], and the nodes after the first
    such node are never looked at.  On the snapshots whose provider ids are
    all present the call ends with a name or with [NodeNotFound]. *)
Theorem absent_provider_id_type_error (nodes : list V1Node) (instance_id : string)
  (w : World) :
  ((exists node, In node nodes /\ spec_provider_id node = None) ->
   snd (get_node_by_instance_id nodes instance_id w) = Raise TypeError
   /\ exists before node after,
        nodes = before ++ node :: after
        /\ spec_provider_id node = None
        /\ forall others,
             get_node_by_instance_id (before ++ node :: others) instance_id w =
             get_node_by_instance_id nodes instance_id w)
  /\ (forallb provider_id_present nodes = true ->
      snd (get_node_by_instance_id nodes instance_id w) = Raise NodeNotFound
      \/ exists name, snd (get_node_by_instance_id nodes instance_id w) = Ok name).
Proof.
  split.
  - intros Habsent.
    destruct (first_absent_split nodes Habsent)
      as [before [node [after [Hsplit [Hall Hnone]]]]].
    assert (Hrun : forall others,
               get_node_by_instance_id (before ++ node :: others) instance_id w =
               (fst (for_in before (scan_node instance_id) ""
                       (mkWorld (list_calls w)
                          (trace w ++
                           [LogInfo "Searching for k8s node name by instance id..." []]))),
                Raise TypeError)).
    { intros others. unfold get_node_by_instance_id, bind, logger_info, emit.
      rewrite (scan_absent _ _ _ _ Hall Hnone). reflexivity. }
    split.
    + rewrite Hsplit, Hrun. reflexivity.
    + exists before, node, after. repeat split; try assumption.
      intros others. rewrite Hsplit, !Hrun. reflexivity.
  - intros Hall. rewrite (get_node_by_instance_id_present _ _ _ Hall).
    destruct (last_match instance_id nodes) as [found|]; [|left; reflexivity].
    destruct (py_not (metadata_name found)); [left; reflexivity|].
    right. exists (metadata_name found). reflexivity.
Qed.

Lemma absent_provider_id_type_error_witness :
  snd (get_node_by_instance_id [node_a; node_bare; node_b] "i-222" world0)
    = Raise TypeError
  /\ (snd (get_node_by_instance_id [node_a; node_b] "i-222" world0) = Raise NodeNotFound
      \/ exists name,
           snd (get_node_by_instance_id [node_a; node_b] "i-222" world0) = Ok name).
Proof.
  split.
  - apply (absent_provider_id_type_error [node_a; node_bare; node_b] "i-222" world0).
    exists node_bare. split; [right; left|]; reflexivity.
  - apply (absent_provider_id_type_error [node_a; node_b] "i-222" world0).
    reflexivity.
Defined.

(** ** Autoscaler controller *)

(** C2, as amended.  Whatever the configuration says, [modify_k8s_autoscaler]
    patches the autoscaler deployment to 0 replicas on [pause] and to the
    constant 2 on [resume]; the patch is the only API call, and it is
    followed by the log line of its outcome. *)
Theorem autoscaler_patch_replicas (app_config : AppConfig) (cluster : Cluster)
  (w : World) :
  let deployment := K8S_AUTOSCALER_DEPLOYMENT app_config in
  let namespace := K8S_AUTOSCALER_NAMESPACE app_config in
  let outcome replicas :=
    match patch_rejects cluster deployment namespace replicas with
    | None => LogInfo "K8s autoscaler modified to replicas: {}" [AInt replicas]
    | Some e =>
        LogInfo "Scaling of k8s autoscaler failed. Error code was {}, {}. Exiting."
          [AStr (reason e); AStr (body e)]
    end in
  trace (fst (modify_k8s_autoscaler app_config cluster "pause" w)) =
    trace w ++ [LogInfo "Pausing k8s autoscaler..." [];
                PatchDeployment deployment namespace 0;
                outcome 0]
  /\ trace (fst (modify_k8s_autoscaler app_config cluster "resume" w)) =
       trace w ++ [LogInfo "Resuming k8s autoscaler..." [];
                   PatchDeployment deployment namespace 2;
                   outcome 2].
Proof.
  cbv zeta. split.
  - unfold modify_k8s_autoscaler, try_except, api_patch_namespaced_deployment,
      bind, logger_info, emit, ret, raise, sys_exit. simpl.
    destruct (patch_rejects cluster _ _ 0); simpl; rewrite <- !app_assoc; reflexivity.
  - unfold modify_k8s_autoscaler, try_except, api_patch_namespaced_deployment,
      bind, logger_info, emit, ret, raise, sys_exit. simpl.
    destruct (patch_rejects cluster _ _ 2); simpl; rewrite <- !app_assoc; reflexivity.
Qed.

(** C2 fails as stated.  With a configured resumed-replica count of 3,
    [resume] patches the deployment to 2 replicas and never to 3. *)
Lemma resume_ignores_configured_replicas :
  K8S_AUTOSCALER_REPLICAS config_three = 3
  /\ trace (fst (modify_k8s_autoscaler config_three cluster_empty "resume" world0)) =
       [LogInfo "Resuming k8s autoscaler..." [];
        PatchDeployment "cluster-autoscaler" "kube-system" 2;
        LogInfo "K8s autoscaler modified to replicas: {}" [AInt 2]]
  /\ ~ In (PatchDeployment "cluster-autoscaler" "kube-system"
             (K8S_AUTOSCALER_REPLICAS config_three))
          (trace (fst (modify_k8s_autoscaler config_three cluster_empty "resume" world0))).
Proof.
  split; [reflexivity|]. split; [reflexivity|].
  vm_compute. intros [H|[H|[H|[]]]]; discriminate.
Qed.

(** The sibling mutation: when the API rejects the patch,
    [modify_k8s_autoscaler] ends the process with exit status 1. *)
Lemma modify_k8s_autoscaler_api_failure_exits (app_config : AppConfig)
  (cluster : Cluster) (action : string) (e : ApiException) (w : World) :
  action = "pause" \/ action = "resume" ->
  (forall replicas,
     patch_rejects cluster (K8S_AUTOSCALER_DEPLOYMENT app_config)
       (K8S_AUTOSCALER_NAMESPACE app_config) replicas = Some e) ->
  snd (modify_k8s_autoscaler app_config cluster action w) = Raise (SystemExit 1).
Proof.
  intros [->| ->] Hrej;
    unfold modify_k8s_autoscaler, try_except, api_patch_namespaced_deployment,
      bind, logger_info, emit, ret, raise, sys_exit; simpl;
    rewrite Hrej; reflexivity.
Qed.

(** ** Node evictor *)

(** C1, on the code.  When the API rejects the deletion, [delete_node] logs
    the exception and then returns normally, exactly as it does after a
    successful deletion: the process is not ended and no exception reaches
    the caller. *)
Theorem delete_node_swallows_api_failure (app_config : AppConfig) (cluster : Cluster)
  (node_name : string) (e : ApiException) (w : World) :
  delete_rejects cluster node_name (DRY_RUN app_config) = Some e ->
  delete_node app_config cluster node_name w =
    (mkWorld (list_calls w)
       (trace w ++ [LogInfo "Deleting k8s node {}..." [AStr node_name];
                    DeleteNode node_name (DRY_RUN app_config);
                    LogInfo "Exception when calling CoreV1Api->delete_node: {}"
                      [AExc e]]),
     Ok tt).
Proof.
  intros Hrej.
  unfold delete_node, try_except, api_delete_node, bind, logger_info, emit, ret, raise.
  destruct (DRY_RUN app_config); simpl; rewrite Hrej; simpl;
    rewrite <- !app_assoc; reflexivity.
Qed.

Lemma delete_node_swallows_api_failure_witness :
  delete_node config_three cluster_rejecting "node-b" world0 =
    (mkWorld 0
       [LogInfo "Deleting k8s node {}..." [AStr "node-b"];
        DeleteNode "node-b" false;
        LogInfo "Exception when calling CoreV1Api->delete_node: {}" [AExc not_found]],
     Ok tt).
Proof.
  apply (delete_node_swallows_api_failure config_three cluster_rejecting "node-b"
           not_found world0).
  reflexivity.
Defined.

(** ** Health poller *)

Lemma first_converged_some (converged : list V1Node -> bool)
  (items : nat -> list V1Node) (k base i : nat) :
  first_converged converged items k base = Some i ->
  (base <= i < base + k)%nat
  /\ converged (items i) = true
  /\ forall j, (base <= j < i)%nat -> converged (items j) = false.
Proof.
  revert base; induction k as [|k IH]; simpl; intros base; [discriminate|].
  destruct (converged (items base)) eqn:Hc.
  - intros H; injection H as <-.
    split; [lia|]. split; [exact Hc|]. intros j Hj; lia.
  - intros H. destruct (IH _ H) as [Hi [Hok Hbefore]].
    split; [lia|]. split; [exact Hok|].
    intros j Hj. destruct (Nat.eq_dec j base) as [->|Hne]; [exact Hc|].
    apply Hbefore. lia.
Qed.

Lemma first_converged_none (converged : list V1Node -> bool)
  (items : nat -> list V1Node) (k base : nat) :
  first_converged converged items k base = None <->
  forall i, (base <= i < base + k)%nat -> converged (items i) = false.
Proof.
  revert base; induction k as [|k IH]; simpl; intros base.
  - split; [intros _ i Hi; lia | reflexivity].
  - destruct (converged (items base)) eqn:Hc.
    + split; [discriminate|]. intros H. rewrite H in Hc by lia. discriminate.
    + rewrite IH. split; intros H i Hi.
      * destruct (Nat.eq_dec i base) as [->|Hne]; [exact Hc|]. apply H. lia.
      * apply H. lia.
Qed.

Lemma first_converged_at (converged : list V1Node -> bool)
  (items : nat -> list V1Node) (k base i : nat) :
  (base <= i < base + k)%nat ->
  converged (items i) = true ->
  (forall j, (base <= j < i)%nat -> converged (items j) = false) ->
  first_converged converged items k base = Some i.
Proof.
  intros Hi Hok Hbefore.
  destruct (first_converged converged items k base) as [i'|] eqn:Hf.
  - destruct (first_converged_some _ _ _ _ _ Hf) as [Hi' [Hok' Hbefore']].
    f_equal. destruct (Nat.lt_trichotomy i' i) as [Hlt|[Heq|Hgt]]; [|exact Heq|].
    + rewrite Hbefore in Hok' by lia. discriminate.
    + rewrite Hbefore' in Hok by lia. discriminate.
  - rewrite (proj1 (first_converged_none _ _ _ _) Hf) in Hok by lia. discriminate.
Qed.

(** The shape the two polling loops share: leave when the counter has
    reached [max_retry], otherwise list the nodes once and either stop with
    [True] or go round again with [False]. *)
Section Polling.

Variable cluster : Cluster.
Variable max_retry : Z.
Variable converged : list V1Node -> bool.
Variable loop : nat -> Z -> option bool -> M (option bool).

Hypothesis loop_done :
  forall fuel retry_count v w,
    max_retry <= retry_count -> loop fuel retry_count v w = (w, Ok v).

Hypothesis loop_converged :
  forall fuel retry_count v w,
    retry_count < max_retry ->
    converged (list_node_items cluster (list_calls w)) = true ->
    exists w',
      loop (S fuel) retry_count v w = (w', Ok (Some true))
      /\ list_calls w' = S (list_calls w).

Hypothesis loop_retry :
  forall fuel retry_count v w,
    retry_count < max_retry ->
    converged (list_node_items cluster (list_calls w)) = false ->
    exists w1,
      loop (S fuel) retry_count v w = loop fuel (retry_count + 1) (Some false) w1
      /\ list_calls w1 = S (list_calls w).

Lemma poll_run (k : nat) :
  forall (fuel : nat) (retry_count : Z) (v : option bool) (w : World),
    (k <= fuel)%nat ->
    Z.of_nat k = Z.max 0 (max_retry - retry_count) ->
    exists w',
      loop fuel retry_count v w =
        (w', Ok match first_converged converged (list_node_items cluster) k (list_calls w) with
                 | Some _ => Some true
                 | None => match k with O => v | S _ => Some false end
                 end)
      /\ list_calls w' =
           match first_converged converged (list_node_items cluster) k (list_calls w) with
           | Some i => S i
           | None => (list_calls w + k)%nat
           end.
Proof.
  induction k as [|k IH]; intros fuel retry_count v w Hfuel Hk.
  - exists w. simpl. rewrite loop_done by lia. split; [reflexivity | lia].
  - destruct fuel as [|fuel]; [lia|]. simpl.
    destruct (converged (list_node_items cluster (list_calls w))) eqn:Hc.
    + destruct (loop_converged fuel retry_count v w ltac:(lia) Hc)
        as [w' [Hrun Hcalls]].
      exists w'. split; assumption.
    + destruct (loop_retry fuel retry_count v w ltac:(lia) Hc) as [w1 [Hrun Hcalls]].
      destruct (IH fuel (retry_count + 1) (Some false) w1 ltac:(lia) ltac:(lia))
        as [w' [Hrun' Hcalls']].
      exists w'. rewrite Hrun, Hrun', Hcalls', Hcalls. split.
      * destruct (first_converged converged (list_node_items cluster) k
                    (S (list_calls w))); [reflexivity|].
        destruct k; reflexivity.
      * destruct (first_converged converged (list_node_items cluster) k
                    (S (list_calls w))); lia.
Qed.

End Polling.

(** The same shape when the sleep between two attempts raises: the first
    attempt that does not converge ends the poll with that error. *)
Section PollingAbort.

Variable cluster : Cluster.
Variable max_retry : Z.
Variable converged : list V1Node -> bool.
Variable loop : nat -> Z -> option bool -> M (option bool).
Variable e : PyErr.

Hypothesis loop_done :
  forall fuel retry_count v w,
    max_retry <= retry_count -> loop fuel retry_count v w = (w, Ok v).

Hypothesis loop_converged :
  forall fuel retry_count v w,
    retry_count < max_retry ->
    converged (list_node_items cluster (list_calls w)) = true ->
    exists w',
      loop (S fuel) retry_count v w = (w', Ok (Some true))
      /\ list_calls w' = S (list_calls w).

Hypothesis loop_abort :
  forall fuel retry_count v w,
    retry_count < max_retry ->
    converged (list_node_items cluster (list_calls w)) = false ->
    exists w1,
      loop (S fuel) retry_count v w = (w1, Raise e)
      /\ list_calls w1 = S (list_calls w).

Lemma poll_abort_run (k fuel : nat) (retry_count : Z) (v : option bool) (w : World) :
  (k <= fuel)%nat ->
  Z.of_nat k = Z.max 0 (max_retry - retry_count) ->
  exists w',
    loop fuel retry_count v w =
      (w', match first_converged converged (list_node_items cluster)
                   (attempts (Some e) k) (list_calls w) with
           | Some _ => Ok (Some true)
           | None => match k with O => Ok v | S _ => Raise e end
           end)
    /\ list_calls w' =
         match first_converged converged (list_node_items cluster)
                 (attempts (Some e) k) (list_calls w) with
         | Some i => S i
         | None => (list_calls w + attempts (Some e) k)%nat
         end.
Proof.
  intros Hfuel Hk. destruct k as [|k].
  - exists w. cbn. rewrite loop_done by lia. split; [reflexivity | lia].
  - destruct fuel as [|fuel]; [lia|]. cbn [attempts first_converged].
    destruct (converged (list_node_items cluster (list_calls w))) eqn:Hc.
    + exact (loop_converged fuel retry_count v w ltac:(lia) Hc).
    + destruct (loop_abort fuel retry_count v w ltac:(lia) Hc) as [w1 [Hrun Hcalls]].
      exists w1. split; [exact Hrun | lia].
Qed.

End PollingAbort.

Lemma get_k8s_nodes_run (cluster : Cluster) (w : World) :
  exists w',
    get_k8s_nodes cluster w = (w', Ok (list_node_items cluster (list_calls w)))
    /\ list_calls w' = S (list_calls w).
Proof.
  eexists. unfold get_k8s_nodes, api_list_node, bind, logger_info, emit, ret. simpl.
  split; reflexivity.
Qed.

(** One condition clears the flag when it is Ready/False and leaves it
    alone otherwise. *)
Lemma check_condition_run (node : V1Node) (c : V1NodeCondition)
  (healthy_nodes : bool) (w : World) :
  exists w',
    check_condition node c healthy_nodes w =
      (w', Ok (healthy_nodes && negb (ready_false c)))
    /\ list_calls w' = list_calls w.
Proof.
  unfold check_condition, ready_false, bind, logger_info, emit, ret.
  destruct (String.eqb (type c) "Ready" && String.eqb (status c) "False").
  - eexists. rewrite andb_false_r. split; reflexivity.
  - rewrite andb_true_r.
    destruct (String.eqb (type c) "Ready" && String.eqb (status c) "True");
      eexists; split; reflexivity.
Qed.

(** The inner loop over the conditions of one node clears the flag exactly
    when one of them is Ready/False, and never sets it again. *)
Lemma conditions_run (node : V1Node) (conditions : list V1NodeCondition) :
  forall (healthy_nodes : bool) (w : World),
    exists w',
      for_in conditions (check_condition node) healthy_nodes w =
        (w', Ok (healthy_nodes && negb (existsb ready_false conditions)))
      /\ list_calls w' = list_calls w.
Proof.
  induction conditions as [|c rest IH]; simpl; intros healthy_nodes w.
  - exists w. rewrite andb_true_r. split; reflexivity.
  - destruct (check_condition_run node c healthy_nodes w) as [w1 [Hrun1 Hcalls1]].
    unfold bind. rewrite Hrun1.
    destruct (IH (healthy_nodes && negb (ready_false c)) w1) as [w' [Hrun Hcalls]].
    exists w'. rewrite Hrun, negb_orb, andb_assoc.
    split; [reflexivity | congruence].
Qed.

(** The loop over the nodes of one snapshot computes [snapshot_healthy]. *)
Lemma nodes_run (nodes : list V1Node) :
  forall (healthy_nodes : bool) (w : World),
    exists w',
      for_in nodes
        (fun node healthy_nodes =>
           for_in (status_conditions node) (check_condition node) healthy_nodes)
        healthy_nodes w =
        (w', Ok (healthy_nodes && snapshot_healthy nodes))
      /\ list_calls w' = list_calls w.
Proof.
  induction nodes as [|n rest IH]; simpl; intros healthy_nodes w.
  - exists w. rewrite andb_true_r. split; reflexivity.
  - unfold bind at 1.
    destruct (conditions_run n (status_conditions n) healthy_nodes w)
      as [w1 [Hrun1 Hcalls1]].
    rewrite Hrun1.
    destruct (IH (healthy_nodes && negb (existsb ready_false (status_conditions n))) w1)
      as [w' [Hrun Hcalls]].
    exists w'. rewrite Hrun. unfold node_unhealthy. rewrite andb_assoc.
    split; [reflexivity | congruence].
Qed.

Lemma nodes_count_loop_done (cluster : Cluster) (clock : Clock)
  (desired_node_count max_retry wait : Z)
  (fuel : nat) (retry_count : Z) (v : option bool) (w : World) :
  max_retry <= retry_count ->
  nodes_count_loop cluster clock fuel desired_node_count max_retry wait retry_count v w =
    (w, Ok v).
Proof.
  intros Hle. destruct fuel; simpl; rewrite (proj2 (Z.ltb_ge _ _) Hle); reflexivity.
Qed.

Lemma nodes_count_loop_converged (cluster : Cluster) (clock : Clock)
  (desired_node_count max_retry wait : Z)
  (fuel : nat) (retry_count : Z) (v : option bool) (w : World) :
  retry_count < max_retry ->
  count_reached desired_node_count (list_node_items cluster (list_calls w)) = true ->
  exists w',
    nodes_count_loop cluster clock (S fuel) desired_node_count max_retry wait
      retry_count v w =
      (w', Ok (Some true))
    /\ list_calls w' = S (list_calls w).
Proof.
  intros Hlt Hc. simpl. rewrite (proj2 (Z.ltb_lt _ _) Hlt).
  destruct (get_k8s_nodes_run cluster w) as [w1 [Hrun Hcalls]].
  unfold bind at 1. rewrite Hrun.
  unfold count_reached in Hc. unfold bind, logger_info, emit, ret. rewrite Hc. simpl.
  eexists. split; [reflexivity | exact Hcalls].
Qed.

Lemma nodes_count_loop_retry (cluster : Cluster) (clock : Clock)
  (desired_node_count max_retry wait : Z) :
  sleep_error clock wait = None ->
  forall (fuel : nat) (retry_count : Z) (v : option bool) (w : World),
  retry_count < max_retry ->
  count_reached desired_node_count (list_node_items cluster (list_calls w)) = false ->
  exists w1,
    nodes_count_loop cluster clock (S fuel) desired_node_count max_retry wait
      retry_count v w =
      nodes_count_loop cluster clock fuel desired_node_count max_retry wait
        (retry_count + 1) (Some false) w1
    /\ list_calls w1 = S (list_calls w).
Proof.
  intros Hnap fuel retry_count v w Hlt Hc. cbn [nodes_count_loop]. rewrite (proj2 (Z.ltb_lt _ _) Hlt).
  destruct (get_k8s_nodes_run cluster w) as [w1 [Hrun Hcalls]].
  unfold bind at 1. rewrite Hrun.
  unfold count_reached in Hc. unfold bind at 1, logger_info at 1, emit at 1.
  rewrite Hc. cbn [negb]. unfold bind at 1, logger_info at 1, emit at 1.
  unfold bind at 1, time_sleep at 1. rewrite Hnap. unfold emit at 1.
  eexists. split; [reflexivity | exact Hcalls].
Qed.

Lemma nodes_count_loop_abort (cluster : Cluster) (clock : Clock)
  (desired_node_count max_retry wait : Z) (e : PyErr) :
  sleep_error clock wait = Some e ->
  forall (fuel : nat) (retry_count : Z) (v : option bool) (w : World),
  retry_count < max_retry ->
  count_reached desired_node_count (list_node_items cluster (list_calls w)) = false ->
  exists w1,
    nodes_count_loop cluster clock (S fuel) desired_node_count max_retry wait
      retry_count v w =
      (w1, Raise e)
    /\ list_calls w1 = S (list_calls w).
Proof.
  intros Hnap fuel retry_count v w Hlt Hc. cbn [nodes_count_loop]. rewrite (proj2 (Z.ltb_lt _ _) Hlt).
  destruct (get_k8s_nodes_run cluster w) as [w1 [Hrun Hcalls]].
  unfold bind at 1. rewrite Hrun.
  unfold count_reached in Hc. unfold bind at 1, logger_info at 1, emit at 1.
  rewrite Hc. cbn [negb]. unfold bind at 1, logger_info at 1, emit at 1.
  unfold bind at 1, time_sleep at 1. rewrite Hnap. unfold raise.
  eexists. split; [reflexivity | exact Hcalls].
Qed.

Lemma nodes_ready_loop_done (cluster : Cluster) (clock : Clock) (max_retry wait : Z)
  (fuel : nat) (retry_count : Z) (v : option bool) (w : World) :
  max_retry <= retry_count ->
  nodes_ready_loop cluster clock fuel max_retry wait retry_count v w = (w, Ok v).
Proof.
  intros Hle. destruct fuel; simpl; rewrite (proj2 (Z.ltb_ge _ _) Hle); reflexivity.
Qed.

Lemma nodes_ready_loop_converged (cluster : Cluster) (clock : Clock)
  (max_retry wait : Z)
  (fuel : nat) (retry_count : Z) (v : option bool) (w : World) :
  retry_count < max_retry ->
  snapshot_healthy (list_node_items cluster (list_calls w)) = true ->
  exists w',
    nodes_ready_loop cluster clock (S fuel) max_retry wait retry_count v w =
      (w', Ok (Some true))
    /\ list_calls w' = S (list_calls w).
Proof.
  intros Hlt Hc. cbn [nodes_ready_loop]. rewrite (proj2 (Z.ltb_lt _ _) Hlt).
  destruct (get_k8s_nodes_run cluster w) as [w1 [Hrun Hcalls]].
  unfold bind at 1. rewrite Hrun.
  destruct (nodes_run (list_node_items cluster (list_calls w)) true w1)
    as [w2 [Hrun2 Hcalls2]].
  unfold bind at 1. rewrite Hrun2, Hc. cbn [andb].
  unfold bind, logger_info, emit, ret.
  eexists. split; [reflexivity | simpl; congruence].
Qed.

Lemma nodes_ready_loop_retry (cluster : Cluster) (clock : Clock) (max_retry wait : Z) :
  sleep_error clock wait = None ->
  forall (fuel : nat) (retry_count : Z) (v : option bool) (w : World),
  retry_count < max_retry ->
  snapshot_healthy (list_node_items cluster (list_calls w)) = false ->
  exists w1,
    nodes_ready_loop cluster clock (S fuel) max_retry wait retry_count v w =
      nodes_ready_loop cluster clock fuel max_retry wait (retry_count + 1)
        (Some false) w1
    /\ list_calls w1 = S (list_calls w).
Proof.
  intros Hnap fuel retry_count v w Hlt Hc. cbn [nodes_ready_loop]. rewrite (proj2 (Z.ltb_lt _ _) Hlt).
  destruct (get_k8s_nodes_run cluster w) as [w1 [Hrun Hcalls]].
  unfold bind at 1. rewrite Hrun.
  destruct (nodes_run (list_node_items cluster (list_calls w)) true w1)
    as [w2 [Hrun2 Hcalls2]].
  unfold bind at 1. rewrite Hrun2, Hc. cbn [andb].
  unfold bind at 1, logger_info at 1, emit at 1.
  unfold bind at 1, time_sleep at 1. rewrite Hnap. unfold emit at 1.
  eexists. split; [reflexivity | simpl; congruence].
Qed.

Lemma nodes_ready_loop_abort (cluster : Cluster) (clock : Clock) (max_retry wait : Z)
  (e : PyErr) :
  sleep_error clock wait = Some e ->
  forall (fuel : nat) (retry_count : Z) (v : option bool) (w : World),
  retry_count < max_retry ->
  snapshot_healthy (list_node_items cluster (list_calls w)) = false ->
  exists w1,
    nodes_ready_loop cluster clock (S fuel) max_retry wait retry_count v w =
      (w1, Raise e)
    /\ list_calls w1 = S (list_calls w).
Proof.
  intros Hnap fuel retry_count v w Hlt Hc. cbn [nodes_ready_loop]. rewrite (proj2 (Z.ltb_lt _ _) Hlt).
  destruct (get_k8s_nodes_run cluster w) as [w1 [Hrun Hcalls]].
  unfold bind at 1. rewrite Hrun.
  destruct (nodes_run (list_node_items cluster (list_calls w)) true w1)
    as [w2 [Hrun2 Hcalls2]].
  unfold bind at 1. rewrite Hrun2, Hc. cbn [andb].
  unfold bind at 1, logger_info at 1, emit at 1.
  unfold bind at 1, time_sleep at 1. rewrite Hnap. unfold raise.
  eexists. split; [reflexivity | simpl; congruence].
Qed.

Lemma budget_zero (max_retry : Z) : max_retry <= 1 -> budget max_retry = O.
Proof. unfold budget. lia. Qed.

Lemma budget_pos (max_retry : Z) :
  1 < max_retry -> exists k, budget max_retry = S k /\ Z.of_nat (S k) = max_retry - 1.
Proof. unfold budget. intros H. exists (Z.to_nat (max_retry - 2)). lia. Qed.

(** What [k8s_nodes_count] does, for every retry bound and every wait:
    [True] right after the first listing of the desired length among the
    attempts it can make; otherwise an [UnboundLocalError] without any
    listing when the budget is empty, the error of [time.sleep] after one
    listing when the wait is refused, and [False] after the whole budget in
    the remaining case. *)
Lemma k8s_nodes_count_run (cluster : Cluster) (clock : Clock)
  (desired_node_count max_retry wait : Z) (w : World) :
  exists w',
    k8s_nodes_count cluster clock desired_node_count max_retry wait w =
      (w', poll_result (sleep_error clock wait) "nodes_online" (budget max_retry)
             (first_converged (count_reached desired_node_count)
                (list_node_items cluster)
                (attempts (sleep_error clock wait) (budget max_retry)) (list_calls w)))
    /\ list_calls w' =
         match first_converged (count_reached desired_node_count)
                 (list_node_items cluster)
                 (attempts (sleep_error clock wait) (budget max_retry))
                 (list_calls w) with
         | Some i => S i
         | None =>
             (list_calls w + attempts (sleep_error clock wait) (budget max_retry))%nat
         end.
Proof.
  unfold k8s_nodes_count, bind, logger_info, emit. fold (budget max_retry).
  destruct (sleep_error clock wait) as [e|] eqn:Hnap.
  - match goal with
    | |- context [nodes_count_loop _ _ _ _ _ _ _ _ ?w0] =>
        destruct (poll_abort_run cluster max_retry (count_reached desired_node_count)
                    (fun fuel retry_count v =>
                       nodes_count_loop cluster clock fuel desired_node_count
                         max_retry wait retry_count v)
                    e
                    (nodes_count_loop_done cluster clock desired_node_count
                       max_retry wait)
                    (nodes_count_loop_converged cluster clock desired_node_count
                       max_retry wait)
                    (nodes_count_loop_abort cluster clock desired_node_count
                       max_retry wait e Hnap)
                    (budget max_retry) (budget max_retry) 1 None w0
                    (Nat.le_refl _) ltac:(unfold budget; lia))
          as [w' [Hrun Hcalls]]
    end.
    cbn beta in Hrun. cbn [list_calls] in Hrun, Hcalls.
    exists w'. split; [|exact Hcalls]. rewrite Hrun.
    destruct (first_converged _ _ _ _); [reflexivity|].
    destruct (budget max_retry); reflexivity.
  - match goal with
    | |- context [nodes_count_loop _ _ _ _ _ _ _ _ ?w0] =>
        destruct (poll_run cluster max_retry (count_reached desired_node_count)
                    (fun fuel retry_count v =>
                       nodes_count_loop cluster clock fuel desired_node_count
                         max_retry wait retry_count v)
                    (nodes_count_loop_done cluster clock desired_node_count
                       max_retry wait)
                    (nodes_count_loop_converged cluster clock desired_node_count
                       max_retry wait)
                    (nodes_count_loop_retry cluster clock desired_node_count
                       max_retry wait Hnap)
                    (budget max_retry) (budget max_retry) 1 None w0
                    (Nat.le_refl _) ltac:(unfold budget; lia))
          as [w' [Hrun Hcalls]]
    end.
    cbn beta in Hrun. cbn [list_calls] in Hrun, Hcalls. cbn [attempts].
    exists w'. split; [|exact Hcalls]. rewrite Hrun.
    destruct (first_converged _ _ _ _); [reflexivity|].
    destruct (budget max_retry); reflexivity.
Qed.

(** What [k8s_nodes_ready] does, for every retry bound and every wait. *)
Lemma k8s_nodes_ready_run (cluster : Cluster) (clock : Clock) (max_retry wait : Z)
  (w : World) :
  exists w',
    k8s_nodes_ready cluster clock max_retry wait w =
      (w', poll_result (sleep_error clock wait) "healthy_nodes" (budget max_retry)
             (first_converged snapshot_healthy (list_node_items cluster)
                (attempts (sleep_error clock wait) (budget max_retry)) (list_calls w)))
    /\ list_calls w' =
         match first_converged snapshot_healthy (list_node_items cluster)
                 (attempts (sleep_error clock wait) (budget max_retry))
                 (list_calls w) with
         | Some i => S i
         | None =>
             (list_calls w + attempts (sleep_error clock wait) (budget max_retry))%nat
         end.
Proof.
  unfold k8s_nodes_ready, bind, logger_info, emit. fold (budget max_retry).
  destruct (sleep_error clock wait) as [e|] eqn:Hnap.
  - match goal with
    | |- context [nodes_ready_loop _ _ _ _ _ _ _ ?w0] =>
        destruct (poll_abort_run cluster max_retry snapshot_healthy
                    (fun fuel retry_count v =>
                       nodes_ready_loop cluster clock fuel max_retry wait retry_count v)
                    e
                    (nodes_ready_loop_done cluster clock max_retry wait)
                    (nodes_ready_loop_converged cluster clock max_retry wait)
                    (nodes_ready_loop_abort cluster clock max_retry wait e Hnap)
                    (budget max_retry) (budget max_retry) 1 None w0
                    (Nat.le_refl _) ltac:(unfold budget; lia))
          as [w' [Hrun Hcalls]]
    end.
    cbn beta in Hrun. cbn [list_calls] in Hrun, Hcalls.
    exists w'. split; [|exact Hcalls]. rewrite Hrun.
    destruct (first_converged _ _ _ _); [reflexivity|].
    destruct (budget max_retry); reflexivity.
  - match goal with
    | |- context [nodes_ready_loop _ _ _ _ _ _ _ ?w0] =>
        destruct (poll_run cluster max_retry snapshot_healthy
                    (fun fuel retry_count v =>
                       nodes_ready_loop cluster clock fuel max_retry wait retry_count v)
                    (nodes_ready_loop_done cluster clock max_retry wait)
                    (nodes_ready_loop_converged cluster clock max_retry wait)
                    (nodes_ready_loop_retry cluster clock max_retry wait Hnap)
                    (budget max_retry) (budget max_retry) 1 None w0
                    (Nat.le_refl _) ltac:(unfold budget; lia))
          as [w' [Hrun Hcalls]]
    end.
    cbn beta in Hrun. cbn [list_calls] in Hrun, Hcalls. cbn [attempts].
    exists w'. split; [|exact Hcalls]. rewrite Hrun.
    destruct (first_converged _ _ _ _); [reflexivity|].
    destruct (budget max_retry); reflexivity.
Qed.

Lemma attempts_zero (nap : option PyErr) : attempts nap O = O.
Proof. destruct nap; reflexivity. Qed.


Lemma attempts_le (nap : option PyErr) (k k' : nat) :
  (k <= k')%nat -> (attempts nap k <= attempts nap k')%nat.
Proof.
  intros Hk. destruct nap; cbn; [|exact Hk]. destruct k, k'; lia.
Qed.

(** [k8s_nodes_count] when [time.sleep] accepts the wait. *)
Lemma k8s_nodes_count_run_sleeping (cluster : Cluster) (clock : Clock)
  (desired_node_count max_retry wait : Z) (w : World) :
  sleep_error clock wait = None ->
  exists w',
    k8s_nodes_count cluster clock desired_node_count max_retry wait w =
      (w', match first_converged (count_reached desired_node_count)
                   (list_node_items cluster) (budget max_retry) (list_calls w) with
           | Some _ => Ok true
           | None =>
               if 1 <? max_retry then Ok false
               else Raise (UnboundLocalError "nodes_online")
           end)
    /\ list_calls w' =
         match first_converged (count_reached desired_node_count)
                 (list_node_items cluster) (budget max_retry) (list_calls w) with
         | Some i => S i
         | None => (list_calls w + budget max_retry)%nat
         end.
Proof.
  intros Hnap.
  destruct (k8s_nodes_count_run cluster clock desired_node_count max_retry wait w)
    as [w' [Hrun Hcalls]].
  rewrite Hnap in Hrun, Hcalls. cbn [attempts] in Hrun, Hcalls.
  exists w'. split; [|exact Hcalls]. rewrite Hrun. unfold poll_result.
  destruct (first_converged _ _ _ _); [reflexivity|].
  destruct (Z.ltb_spec 1 max_retry) as [Hlt|Hge].
  - destruct (budget_pos _ Hlt) as [k [-> _]]. reflexivity.
  - rewrite (budget_zero _ Hge). reflexivity.
Qed.

(** [k8s_nodes_ready] when [time.sleep] accepts the wait. *)
Lemma k8s_nodes_ready_run_sleeping (cluster : Cluster) (clock : Clock)
  (max_retry wait : Z) (w : World) :
  sleep_error clock wait = None ->
  exists w',
    k8s_nodes_ready cluster clock max_retry wait w =
      (w', match first_converged snapshot_healthy
                   (list_node_items cluster) (budget max_retry) (list_calls w) with
           | Some _ => Ok true
           | None =>
               if 1 <? max_retry then Ok false
               else Raise (UnboundLocalError "healthy_nodes")
           end)
    /\ list_calls w' =
         match first_converged snapshot_healthy
                 (list_node_items cluster) (budget max_retry) (list_calls w) with
         | Some i => S i
         | None => (list_calls w + budget max_retry)%nat
         end.
Proof.
  intros Hnap.
  destruct (k8s_nodes_ready_run cluster clock max_retry wait w) as [w' [Hrun Hcalls]].
  rewrite Hnap in Hrun, Hcalls. cbn [attempts] in Hrun, Hcalls.
  exists w'. split; [|exact Hcalls]. rewrite Hrun. unfold poll_result.
  destruct (first_converged _ _ _ _); [reflexivity|].
  destruct (Z.ltb_spec 1 max_retry) as [Hlt|Hge].
  - destruct (budget_pos _ Hlt) as [k [-> _]]. reflexivity.
  - rewrite (budget_zero _ Hge). reflexivity.
Qed.

(** Both polling functions end for every retry bound and every wait: the
    fuel given to their loops is never used up. *)
Lemma polling_total (cluster : Cluster) (clock : Clock)
  (desired_node_count max_retry wait : Z) (w : World) :
  snd (k8s_nodes_ready cluster clock max_retry wait w) <> OutOfFuel
  /\ snd (k8s_nodes_count cluster clock desired_node_count max_retry wait w)
     <> OutOfFuel.
Proof.
  destruct (k8s_nodes_ready_run cluster clock max_retry wait w) as [w1 [-> _]].
  destruct (k8s_nodes_count_run cluster clock desired_node_count max_retry wait w)
    as [w2 [-> _]].
  cbn [snd]. unfold poll_result.
  split; (destruct (first_converged _ _ _ _); [discriminate|]);
    destruct (budget max_retry); try discriminate;
    destruct (sleep_error clock wait); discriminate.
Qed.

Lemma first_converged_never (converged : list V1Node -> bool)
  (items : nat -> list V1Node) (max_retry : Z) (base : nat) :
  (forall i, Z.of_nat i < max_retry - 1 -> converged (items (base + i)%nat) = false) ->
  first_converged converged items (budget max_retry) base = None.
Proof.
  intros Hnever. apply first_converged_none. intros i Hi.
  replace i with (base + (i - base))%nat by lia. apply Hnever. unfold budget in Hi. lia.
Qed.

(** With a non-empty budget and a wait that [time.sleep] accepts both
    polling functions return a boolean. *)
Lemma polling_returns_bool (cluster : Cluster) (clock : Clock)
  (desired_node_count max_retry wait : Z) (w : World) :
  sleep_error clock wait = None ->
  1 < max_retry ->
  (exists b, snd (k8s_nodes_ready cluster clock max_retry wait w) = Ok b)
  /\ (exists b,
        snd (k8s_nodes_count cluster clock desired_node_count max_retry wait w) = Ok b).
Proof.
  intros Hnap Hlt.
  destruct (k8s_nodes_ready_run_sleeping cluster clock max_retry wait w Hnap)
    as [w1 [-> _]].
  destruct (k8s_nodes_count_run_sleeping cluster clock desired_node_count max_retry
              wait w Hnap) as [w2 [-> _]].
  cbn [snd]. rewrite (proj2 (Z.ltb_lt _ _) Hlt).
  split; destruct (first_converged _ _ _ _); eauto.
Qed.

(** C3, on the code.  When the retry bound leaves no room for a single
    fetch ([max_retry <= 1]), neither polling function returns a boolean:
    the flag each one returns is assigned only inside the loop, so the
    [return] raises an [UnboundLocalError], before any listing of the
    nodes. *)
Theorem empty_budget_unbound_local (cluster : Cluster) (clock : Clock)
  (desired_node_count max_retry wait : Z) (w : World) :
  max_retry <= 1 ->
  snd (k8s_nodes_ready cluster clock max_retry wait w)
    = Raise (UnboundLocalError "healthy_nodes")
  /\ snd (k8s_nodes_count cluster clock desired_node_count max_retry wait w)
     = Raise (UnboundLocalError "nodes_online")
  /\ fetches (k8s_nodes_ready cluster clock max_retry wait) w = O
  /\ fetches (k8s_nodes_count cluster clock desired_node_count max_retry wait) w = O.
Proof.
  intros Hle. unfold fetches.
  destruct (k8s_nodes_ready_run cluster clock max_retry wait w) as [w1 [-> Hc1]].
  destruct (k8s_nodes_count_run cluster clock desired_node_count max_retry wait w)
    as [w2 [-> Hc2]].
  cbn [fst snd]. rewrite (budget_zero _ Hle), attempts_zero in *.
  cbn [first_converged poll_result] in *. repeat split; lia.
Qed.

Lemma empty_budget_unbound_local_witness :
  snd (k8s_nodes_ready cluster_four clock_any 1 5 world0)
    = Raise (UnboundLocalError "healthy_nodes")
  /\ snd (k8s_nodes_count cluster_four clock_any 4 1 5 world0)
     = Raise (UnboundLocalError "nodes_online")
  /\ fetches (k8s_nodes_ready cluster_four clock_any 1 5) world0 = O
  /\ fetches (k8s_nodes_count cluster_four clock_any 4 1 5) world0 = O.
Proof.
  apply (empty_budget_unbound_local cluster_four clock_any 4 1 5 world0). lia.
Defined.

(** C4.  For every retry bound of at least 2 and every wait that
    [time.sleep] accepts, a poll that never converges gives up with [False]
    after exactly [max_retry - 1] listings of the nodes, in
    [k8s_nodes_ready] as in [k8s_nodes_count]. *)
Theorem polls_max_retry_minus_one (cluster : Cluster) (clock : Clock)
  (desired_node_count max_retry wait : Z) (w : World) :
  sleep_error clock wait = None ->
  2 <= max_retry ->
  ((forall i, Z.of_nat i < max_retry - 1 ->
      snapshot_healthy (list_node_items cluster (list_calls w + i)%nat) = false) ->
   snd (k8s_nodes_ready cluster clock max_retry wait w) = Ok false
   /\ Z.of_nat (fetches (k8s_nodes_ready cluster clock max_retry wait) w)
      = max_retry - 1)
  /\ ((forall i, Z.of_nat i < max_retry - 1 ->
         Z.of_nat (List.length (list_node_items cluster (list_calls w + i)%nat))
           <> desired_node_count) ->
      snd (k8s_nodes_count cluster clock desired_node_count max_retry wait w) = Ok false
      /\ Z.of_nat
           (fetches (k8s_nodes_count cluster clock desired_node_count max_retry wait) w)
         = max_retry - 1).
Proof.
  intros Hnap Hmax. unfold fetches. split; intros Hnever.
  - destruct (k8s_nodes_ready_run_sleeping cluster clock max_retry wait w Hnap)
      as [w1 [-> Hc1]].
    cbn [fst snd]. rewrite (first_converged_never _ _ _ _ Hnever) in *.
    rewrite (proj2 (Z.ltb_lt 1 max_retry)) by lia. unfold budget in Hc1.
    split; [reflexivity | lia].
  - destruct (k8s_nodes_count_run_sleeping cluster clock desired_node_count max_retry
                wait w Hnap) as [w2 [-> Hc2]].
    cbn [fst snd].
    assert (Hnone : first_converged (count_reached desired_node_count)
                      (list_node_items cluster) (budget max_retry) (list_calls w)
                    = None).
    { apply first_converged_never. intros i Hi. unfold count_reached.
      apply Z.eqb_neq. apply Hnever. exact Hi. }
    rewrite Hnone in *.
    rewrite (proj2 (Z.ltb_lt 1 max_retry)) by lia. unfold budget in Hc2.
    split; [reflexivity | lia].
Qed.

(** The scenario of the specification: bound 3, desired count 5, every
    listing of length 4. *)
Lemma polls_max_retry_minus_one_witness :
  snd (k8s_nodes_count cluster_four clock_int64 5 3 10 world0) = Ok false
  /\ Z.of_nat (fetches (k8s_nodes_count cluster_four clock_int64 5 3 10) world0) = 3 - 1.
Proof.
  apply (polls_max_retry_minus_one cluster_four clock_int64 5 3 10 world0).
  - reflexivity.
  - lia.
  - intros i _. simpl. lia.
Defined.

(** Within a non-empty budget and with a wait that [time.sleep] accepts,
    [k8s_nodes_count] returns [True] exactly when one of the listings within
    the budget has length equal to the desired count, neither more nor less;
    it stops right after the first such listing; and it returns [False] when
    none of them has that length. *)
Lemma count_true_iff_exact_length (cluster : Cluster) (clock : Clock)
  (desired_node_count max_retry wait : Z) (w : World) :
  sleep_error clock wait = None ->
  (snd (k8s_nodes_count cluster clock desired_node_count max_retry wait w) = Ok true <->
   exists i, Z.of_nat i < max_retry - 1
             /\ listed_length cluster w i = desired_node_count)
  /\ (forall i,
        Z.of_nat i < max_retry - 1 ->
        listed_length cluster w i = desired_node_count ->
        (forall j, (j < i)%nat -> listed_length cluster w j <> desired_node_count) ->
        fetches (k8s_nodes_count cluster clock desired_node_count max_retry wait) w
        = S i)
  /\ (1 < max_retry ->
      (forall i, Z.of_nat i < max_retry - 1 ->
                 listed_length cluster w i <> desired_node_count) ->
      snd (k8s_nodes_count cluster clock desired_node_count max_retry wait w)
      = Ok false).
Proof.
  intros Hnap. unfold fetches, listed_length.
  destruct (k8s_nodes_count_run_sleeping cluster clock desired_node_count max_retry
              wait w Hnap) as [w' [-> Hcalls]].
  cbn [fst snd]. split; [|split].
  - destruct (first_converged _ _ _ _) as [i|] eqn:Hf.
    + destruct (first_converged_some _ _ _ _ _ Hf) as [Hi [Hok _]].
      split; [intros _ | reflexivity].
      exists (i - list_calls w)%nat. unfold budget in Hi. split; [lia|].
      replace (list_calls w + (i - list_calls w))%nat with i by lia.
      apply Z.eqb_eq. exact Hok.
    + pose proof (proj1 (first_converged_none _ _ _ _) Hf) as Hnone.
      split.
      * destruct (1 <? max_retry); discriminate.
      * intros [i [Hi Hlen]].
        specialize (Hnone (list_calls w + i)%nat ltac:(unfold budget; lia)).
        apply Z.eqb_neq in Hnone. contradiction.
  - intros i Hi Hlen Hbefore.
    rewrite (first_converged_at (count_reached desired_node_count)
               (list_node_items cluster) (budget max_retry) (list_calls w)
               (list_calls w + i)%nat) in Hcalls.
    + lia.
    + unfold budget. lia.
    + apply Z.eqb_eq. exact Hlen.
    + intros j Hj. apply Z.eqb_neq.
      replace j with (list_calls w + (j - list_calls w))%nat by lia.
      apply Hbefore. lia.
  - intros Hlt Hnever.
    rewrite (first_converged_never (count_reached desired_node_count) _ _ _).
    + rewrite (proj2 (Z.ltb_lt _ _) Hlt). reflexivity.
    + intros i Hi. apply Z.eqb_neq. apply Hnever. exact Hi.
Qed.

(** C7, on the code.  With a retry bound of at most 1 the budget holds no
    listing at all, so no fetched snapshot has the desired length; yet
    [k8s_nodes_count] does not return [False]: its [return] raises an
    [UnboundLocalError], for every desired count. *)
Theorem count_empty_budget_not_false (cluster : Cluster) (clock : Clock)
  (desired_node_count max_retry wait : Z) (w : World) :
  max_retry <= 1 ->
  (forall i, Z.of_nat i < max_retry - 1 ->
             listed_length cluster w i <> desired_node_count)
  /\ fetches (k8s_nodes_count cluster clock desired_node_count max_retry wait) w = O
  /\ snd (k8s_nodes_count cluster clock desired_node_count max_retry wait w)
     = Raise (UnboundLocalError "nodes_online")
  /\ snd (k8s_nodes_count cluster clock desired_node_count max_retry wait w)
     <> Ok false.
Proof.
  intros Hle. unfold fetches.
  destruct (k8s_nodes_count_run cluster clock desired_node_count max_retry wait w)
    as [w' [-> Hcalls]].
  cbn [fst snd]. rewrite (budget_zero _ Hle), attempts_zero in *.
  cbn [first_converged poll_result] in *.
  split; [intros i Hi; lia|]. split; [lia|]. split; [reflexivity | discriminate].
Qed.

Lemma count_empty_budget_not_false_witness :
  (forall i, Z.of_nat i < 1 - 1 -> listed_length cluster_four world0 i <> 4)
  /\ fetches (k8s_nodes_count cluster_four clock_int64 4 1 10) world0 = O
  /\ snd (k8s_nodes_count cluster_four clock_int64 4 1 10 world0)
     = Raise (UnboundLocalError "nodes_online")
  /\ snd (k8s_nodes_count cluster_four clock_int64 4 1 10 world0) <> Ok false.
Proof.
  apply (count_empty_budget_not_false cluster_four clock_int64 4 1 10 world0). lia.
Defined.











(** ** Beyond the claims: what each computation does to the cluster *)

Lemma effects_app (t u : list Event) : effects (t ++ u) = effects t ++ effects u.
Proof. unfold effects. apply filter_app. Qed.

Lemma quiet_ret {A} (a : A) : quiet (ret a).
Proof. intros w. split; reflexivity. Qed.

Lemma quiet_raise {A} (e : PyErr) : quiet (@raise A e).
Proof. intros w. split; reflexivity. Qed.

Lemma quiet_logger_info (fmt : string) (args : list FmtArg) :
  quiet (logger_info fmt args).
Proof.
  intros w. unfold logger_info, emit. cbn [fst list_calls trace].
  split; [reflexivity|]. rewrite effects_app. apply app_nil_r.
Qed.

Lemma quiet_bind {A B} (m : M A) (k : A -> M B) :
  quiet m -> (forall a, quiet (k a)) -> quiet (bind m k).
Proof.
  intros Hm Hk w. unfold bind. specialize (Hm w).
  destruct (m w) as [w1 [a| |]]; cbn [fst] in *; [|exact Hm|exact Hm].
  destruct (Hk a w1) as [Hc He]. destruct Hm as [Hc1 He1]. split; congruence.
Qed.

Lemma quiet_for_in {A S} (xs : list A) (body : A -> S -> M S) :
  (forall x s, quiet (body x s)) -> forall s, quiet (for_in xs body s).
Proof.
  intros Hbody. induction xs as [|x rest IH]; intros s; cbn [for_in].
  - apply quiet_ret.
  - apply quiet_bind; [apply Hbody | exact IH].
Qed.

Lemma quiet_scan_node (instance_id : string) (k8s_node : V1Node) (node_name : string) :
  quiet (scan_node instance_id k8s_node node_name).
Proof.
  unfold scan_node. apply quiet_bind.
  - unfold py_in. destruct (spec_provider_id k8s_node);
      [apply quiet_ret | apply quiet_raise].
  - intros [|]; [|apply quiet_ret].
    apply quiet_bind; [apply quiet_logger_info | intros _; apply quiet_ret].
Qed.

(** [get_node_by_instance_id] works on the snapshot it is given and nothing
    else: whatever the snapshot and however the call ends (a name,
    [NodeNotFound] or a [TypeError]), it makes no API call and does not
    sleep; it only writes log lines. *)
Theorem get_node_by_instance_id_read_only (k8s_nodes : list V1Node)
  (instance_id : string) (w : World) :
  list_calls (fst (get_node_by_instance_id k8s_nodes instance_id w)) = list_calls w
  /\ effects (trace (fst (get_node_by_instance_id k8s_nodes instance_id w)))
     = effects (trace w).
Proof.
  revert w. change (quiet (get_node_by_instance_id k8s_nodes instance_id)).
  unfold get_node_by_instance_id.
  apply quiet_bind; [apply quiet_logger_info | intros _].
  apply quiet_bind; [apply quiet_for_in; apply quiet_scan_node | intros node_name].
  destruct (py_not node_name); [|apply quiet_ret].
  apply quiet_bind; [apply quiet_logger_info | intros _; apply quiet_raise].
Qed.

Lemma str_in_empty (hay : string) : str_in "" hay = true.
Proof. destruct hay; reflexivity. Qed.

(** The empty instance id is a substring of every provider id: on a snapshot
    whose provider ids are all present, [get_node_by_instance_id] then
    answers the name of the last node of the snapshot, whichever machine
    that is. *)
Theorem empty_instance_id_resolves_to_last_node (k8s_nodes : list V1Node)
  (last_node : V1Node) (w : World) :
  forallb provider_id_present (k8s_nodes ++ [last_node]) = true ->
  metadata_name last_node <> "" ->
  snd (get_node_by_instance_id (k8s_nodes ++ [last_node]) "" w)
    = Ok (metadata_name last_node).
Proof.
  intros Hall Hname.
  rewrite (get_node_by_instance_id_present _ _ _ Hall).
  rewrite (last_match_split "" k8s_nodes [] last_node).
  - rewrite (py_not_false _ Hname). reflexivity.
  - rewrite forallb_app in Hall. apply andb_true_iff in Hall as [_ Hlast].
    cbn [forallb] in Hlast. unfold provider_id_present in Hlast. unfold matches.
    destruct (spec_provider_id last_node); [apply str_in_empty | discriminate].
  - intros later [].
Qed.

Lemma empty_instance_id_resolves_to_last_node_witness :
  snd (get_node_by_instance_id ([node_b; node_c] ++ [node_a]) "" world0) = Ok "node-a".
Proof.
  apply (empty_instance_id_resolves_to_last_node [node_b; node_c] node_a world0).
  - reflexivity.
  - discriminate.
Defined.

(** The test [instance_id in provider_id] of the scan holds exactly when the
    provider id is some text, the instance id, and some more text: a node
    matches as soon as the instance id occurs anywhere in its provider id,
    not only at its end. *)
Theorem matches_iff_occurs (instance_id : string) (node : V1Node) :
  matches instance_id node = true <->
  exists before after,
    spec_provider_id node
      = Some (String.append before (String.append instance_id after)).
Proof.
  unfold matches. destruct (spec_provider_id node) as [provider_id|].
  - rewrite str_in_spec. split; intros [before [after H]]; exists before, after;
      congruence.
  - split; [discriminate | intros [before [after H]]; discriminate].
Qed.

(** Any action other than [pause] and [resume] ends the process with exit
    status 1 after one log line, before any API call. *)
Theorem invalid_action_exits_before_patch (app_config : AppConfig) (cluster : Cluster)
  (action : string) (w : World) :
  action <> "pause" ->
  action <> "resume" ->
  modify_k8s_autoscaler app_config cluster action w =
    (mkWorld (list_calls w) (trace w ++ [LogInfo "Invalid k8s autoscaler option" []]),
     Raise (SystemExit 1)).
Proof.
  intros Hp Hr. unfold modify_k8s_autoscaler.
  rewrite (proj2 (String.eqb_neq _ _) Hp), (proj2 (String.eqb_neq _ _) Hr).
  reflexivity.
Qed.

Lemma invalid_action_exits_before_patch_witness :
  modify_k8s_autoscaler config_three cluster_rejecting "Pause" world0 =
    (mkWorld 0 [LogInfo "Invalid k8s autoscaler option" []], Raise (SystemExit 1)).
Proof.
  apply (invalid_action_exits_before_patch config_three cluster_rejecting "Pause" world0);
    discriminate.
Defined.

(** [pause] and [resume] return normally exactly when the API accepts the
    patch; when it rejects it the process ends with exit status 1.  Either
    way the patch is sent once: there is no second attempt. *)
Theorem autoscaler_returns_iff_patch_accepted (app_config : AppConfig)
  (cluster : Cluster) (w : World) :
  let deployment := K8S_AUTOSCALER_DEPLOYMENT app_config in
  let namespace := K8S_AUTOSCALER_NAMESPACE app_config in
  let outcome replicas :=
    match patch_rejects cluster deployment namespace replicas with
    | None => Ok tt
    | Some _ => Raise (SystemExit 1)
    end in
  (snd (modify_k8s_autoscaler app_config cluster "pause" w) = outcome 0
   /\ effects (trace (fst (modify_k8s_autoscaler app_config cluster "pause" w)))
      = effects (trace w) ++ [PatchDeployment deployment namespace 0])
  /\ (snd (modify_k8s_autoscaler app_config cluster "resume" w) = outcome 2
      /\ effects (trace (fst (modify_k8s_autoscaler app_config cluster "resume" w)))
         = effects (trace w) ++ [PatchDeployment deployment namespace 2]).
Proof.
  cbv zeta.
  split;
    unfold modify_k8s_autoscaler, try_except, api_patch_namespaced_deployment,
      bind, logger_info, emit, ret, raise, sys_exit; simpl;
    destruct (patch_rejects cluster _ _ _); simpl;
    rewrite !effects_app; simpl; rewrite !app_nil_r; split; reflexivity.
Qed.

(** [delete_node] never raises and never ends the process: it returns
    normally whether the API accepts the deletion or not.  It sends the
    deletion once, in dry-run mode exactly when [DRY_RUN] is set, and logs
    "Node deleted" only when the API accepted it. *)
Theorem delete_node_always_returns (app_config : AppConfig) (cluster : Cluster)
  (node_name : string) (w : World) :
  delete_node app_config cluster node_name w =
    (mkWorld (list_calls w)
       (trace w ++
        [LogInfo "Deleting k8s node {}..." [AStr node_name];
         DeleteNode node_name (DRY_RUN app_config);
         match delete_rejects cluster node_name (DRY_RUN app_config) with
         | None => LogInfo "Node deleted" []
         | Some e =>
             LogInfo "Exception when calling CoreV1Api->delete_node: {}" [AExc e]
         end]),
     Ok tt).
Proof.
  unfold delete_node, try_except, api_delete_node, bind, logger_info, emit, ret, raise.
  destruct (DRY_RUN app_config); simpl;
    destruct (delete_rejects cluster node_name _); simpl;
    rewrite <- !app_assoc; reflexivity.
Qed.

(** [drain_node] runs [kubectl drain] on the node with
    [--ignore-daemonsets --delete-local-data], adding [--dry-run] exactly
    when [DRY_RUN] is set; it returns normally when the exit status is 0 and
    raises "Node not drained properly. Exiting" on every other status. *)
Theorem drain_node_fails_iff_nonzero_exit (app_config : AppConfig)
  (subprocess_run : list string -> M Z) (node_name : string) (w w' : World)
  (returncode : Z) :
  subprocess_run
    (["kubectl"; "drain"; node_name; "--ignore-daemonsets"; "--delete-local-data"]
     ++ (if DRY_RUN app_config then ["--dry-run"] else []))
    (mkWorld (list_calls w)
       (trace w ++ [LogInfo "Draining worker node {}..." [AStr node_name]]))
    = (w', Ok returncode) ->
  drain_node app_config subprocess_run node_name w =
    (w', if returncode =? 0 then Ok tt else Raise DrainFailed).
Proof.
  intros Hrun. unfold drain_node, bind, logger_info, emit.
  destruct (DRY_RUN app_config); cbn [app] in Hrun; rewrite Hrun;
    destruct (returncode =? 0); reflexivity.
Qed.

Lemma drain_node_fails_iff_nonzero_exit_witness :
  drain_node config_three kubectl_dry_only "node-b" world0 =
    (mkWorld 0 [LogInfo "Draining worker node {}..." [AStr "node-b"]],
     Raise DrainFailed).
Proof.
  apply (drain_node_fails_iff_nonzero_exit config_three kubectl_dry_only "node-b"
           world0 _ 1).
  reflexivity.
Defined.

(** ** Beyond the claims: the polls *)




(** The shape of the two loops again, now with what an attempt does besides
    logging. *)
Section PollingEffects.

Variable cluster : Cluster.
Variable max_retry wait : Z.
Variable converged : list V1Node -> bool.
Variable loop : nat -> Z -> option bool -> M (option bool).

Hypothesis loop_done :
  forall fuel retry_count v w,
    max_retry <= retry_count -> loop fuel retry_count v w = (w, Ok v).

Hypothesis loop_converged :
  forall fuel retry_count v w,
    retry_count < max_retry ->
    converged (list_node_items cluster (list_calls w)) = true ->
    exists w',
      loop (S fuel) retry_count v w = (w', Ok (Some true))
      /\ effects (trace w') = effects (trace w) ++ [ListNode].

Hypothesis loop_retry :
  forall fuel retry_count v w,
    retry_count < max_retry ->
    converged (list_node_items cluster (list_calls w)) = false ->
    exists w1,
      loop (S fuel) retry_count v w = loop fuel (retry_count + 1) (Some false) w1
      /\ list_calls w1 = S (list_calls w)
      /\ effects (trace w1) = effects (trace w) ++ [ListNode; Sleep wait].


End PollingEffects.








Lemma first_converged_offset (converged : list V1Node -> bool)
  (items : nat -> list V1Node) (max_retry : Z) (base i : nat) :
  Z.of_nat i < max_retry - 1 ->
  converged (items (base + i)%nat) = true ->
  (forall j, (j < i)%nat -> converged (items (base + j)%nat) = false) ->
  first_converged converged items (budget max_retry) base = Some (base + i)%nat.
Proof.
  intros Hi Hok Hbefore. apply first_converged_at.
  - unfold budget. lia.
  - exact Hok.
  - intros j Hj. replace j with (base + (j - base))%nat by lia. apply Hbefore. lia.
Qed.





(** With a wait that [time.sleep] accepts, [k8s_nodes_ready] returns [True]
    exactly when one of the snapshots within the budget has no node with a
    Ready/False condition; it stops right after the first such snapshot; and
    with a non-empty budget it returns [False] when every snapshot of the
    budget has such a node. *)
Theorem ready_true_iff_snapshot_healthy (cluster : Cluster) (clock : Clock)
  (max_retry wait : Z) (w : World) :
  sleep_error clock wait = None ->
  (snd (k8s_nodes_ready cluster clock max_retry wait w) = Ok true <->
   exists i, Z.of_nat i < max_retry - 1
             /\ snapshot_healthy (list_node_items cluster (list_calls w + i)%nat) = true)
  /\ (forall i,
        Z.of_nat i < max_retry - 1 ->
        snapshot_healthy (list_node_items cluster (list_calls w + i)%nat) = true ->
        (forall j, (j < i)%nat ->
           snapshot_healthy (list_node_items cluster (list_calls w + j)%nat) = false) ->
        fetches (k8s_nodes_ready cluster clock max_retry wait) w = S i)
  /\ (1 < max_retry ->
      (forall i, Z.of_nat i < max_retry - 1 ->
         snapshot_healthy (list_node_items cluster (list_calls w + i)%nat) = false) ->
      snd (k8s_nodes_ready cluster clock max_retry wait w) = Ok false).
Proof.
  intros Hnap. unfold fetches.
  destruct (k8s_nodes_ready_run_sleeping cluster clock max_retry wait w Hnap)
    as [w' [-> Hcalls]].
  cbn [fst snd]. split; [|split].
  - destruct (first_converged _ _ _ _) as [i|] eqn:Hf.
    + destruct (first_converged_some _ _ _ _ _ Hf) as [Hi [Hok _]].
      split; [intros _ | reflexivity].
      exists (i - list_calls w)%nat. unfold budget in Hi. split; [lia|].
      replace (list_calls w + (i - list_calls w))%nat with i by lia. exact Hok.
    + pose proof (proj1 (first_converged_none _ _ _ _) Hf) as Hnone.
      split.
      * destruct (1 <? max_retry); discriminate.
      * intros [i [Hi Hok]].
        rewrite (Hnone (list_calls w + i)%nat) in Hok by (unfold budget; lia).
        discriminate.
  - intros i Hi Hok Hbefore.
    rewrite (first_converged_offset snapshot_healthy _ _ _ i Hi Hok Hbefore) in Hcalls.
    lia.
  - intros Hlt Hnever.
    rewrite (first_converged_never snapshot_healthy _ _ _ Hnever).
    rewrite (proj2 (Z.ltb_lt _ _) Hlt). reflexivity.
Qed.

Lemma ready_true_iff_snapshot_healthy_witness :
  snd (k8s_nodes_ready cluster_no_ready clock_int64 3 5 world0) = Ok true
  /\ snd (k8s_nodes_ready cluster_flapping clock_int64 3 5 world0) = Ok false.
Proof.
  split.
  - apply (ready_true_iff_snapshot_healthy cluster_no_ready clock_int64 3 5 world0
             eq_refl).
    exists O. split; [lia | reflexivity].
  - apply (ready_true_iff_snapshot_healthy cluster_flapping clock_int64 3 5 world0
             eq_refl).
    + lia.
    + intros i _. reflexivity.
Defined.

Lemma first_converged_more (converged : list V1Node -> bool)
  (items : nat -> list V1Node) (k k' base i : nat) :
  (k <= k')%nat ->
  first_converged converged items k base = Some i ->
  first_converged converged items k' base = Some i.
Proof.
  intros Hk Hf. destruct (first_converged_some _ _ _ _ _ Hf) as [Hi [Hok Hbefore]].
  apply first_converged_at; [lia | exact Hok | exact Hbefore].
Qed.

(** Raising the retry bound never loses a convergence: a poll that returns
    [True] under one bound returns [True] under every larger bound, after
    the same number of listings. *)
Theorem larger_bound_keeps_convergence (cluster : Cluster) (clock : Clock)
  (desired_node_count max_retry max_retry' wait : Z) (w : World) :
  max_retry <= max_retry' ->
  (snd (k8s_nodes_ready cluster clock max_retry wait w) = Ok true ->
   snd (k8s_nodes_ready cluster clock max_retry' wait w) = Ok true
   /\ fetches (k8s_nodes_ready cluster clock max_retry' wait) w
      = fetches (k8s_nodes_ready cluster clock max_retry wait) w)
  /\ (snd (k8s_nodes_count cluster clock desired_node_count max_retry wait w) = Ok true ->
      snd (k8s_nodes_count cluster clock desired_node_count max_retry' wait w) = Ok true
      /\ fetches (k8s_nodes_count cluster clock desired_node_count max_retry' wait) w
         = fetches (k8s_nodes_count cluster clock desired_node_count max_retry wait) w).
Proof.
  intros Hle. unfold fetches.
  assert (Hb : (attempts (sleep_error clock wait) (budget max_retry)
                <= attempts (sleep_error clock wait) (budget max_retry'))%nat)
    by (apply attempts_le; unfold budget; lia).
  split.
  - destruct (k8s_nodes_ready_run cluster clock max_retry wait w) as [w1 [-> Hc1]].
    destruct (k8s_nodes_ready_run cluster clock max_retry' wait w) as [w2 [-> Hc2]].
    cbn [fst snd].
    destruct (first_converged snapshot_healthy _
                (attempts _ (budget max_retry)) _) as [i|] eqn:Hf.
    + rewrite (first_converged_more _ _ _ _ _ _ Hb Hf) in *.
      intros _. split; [reflexivity | lia].
    + unfold poll_result. destruct (budget max_retry); [discriminate|].
      destruct (sleep_error clock wait); discriminate.
  - destruct (k8s_nodes_count_run cluster clock desired_node_count max_retry wait w)
      as [w1 [-> Hc1]].
    destruct (k8s_nodes_count_run cluster clock desired_node_count max_retry' wait w)
      as [w2 [-> Hc2]].
    cbn [fst snd].
    destruct (first_converged (count_reached desired_node_count) _
                (attempts _ (budget max_retry)) _) as [i|] eqn:Hf.
    + rewrite (first_converged_more _ _ _ _ _ _ Hb Hf) in *.
      intros _. split; [reflexivity | lia].
    + unfold poll_result. destruct (budget max_retry); [discriminate|].
      destruct (sleep_error clock wait); discriminate.
Qed.

Lemma larger_bound_keeps_convergence_witness :
  snd (k8s_nodes_count cluster_growing clock_int64 4 30 10 world0) = Ok true
  /\ fetches (k8s_nodes_count cluster_growing clock_int64 4 30 10) world0
     = fetches (k8s_nodes_count cluster_growing clock_int64 4 3 10) world0.
Proof.
  apply (larger_bound_keeps_convergence cluster_growing clock_int64 4 3 30 10 world0).
  - lia.
  - reflexivity.
Defined.

Lemma snapshot_healthy_permutation (nodes nodes' : list V1Node) :
  Permutation nodes nodes' -> snapshot_healthy nodes = snapshot_healthy nodes'.
Proof.
  unfold snapshot_healthy. induction 1 as [|n l l' _ IH|n m l|l l' l'' _ IH1 _ IH2];
    cbn [forallb].
  - reflexivity.
  - rewrite IH. reflexivity.
  - rewrite !andb_assoc, (andb_comm (negb (node_unhealthy m))). reflexivity.
  - congruence.
Qed.

Lemma first_converged_ext (converged : list V1Node -> bool)
  (items items' : nat -> list V1Node) (k : nat) :
  (forall i, converged (items i) = converged (items' i)) ->
  forall base,
    first_converged converged items k base = first_converged converged items' k base.
Proof.
  intros Hext. induction k as [|k IH]; intros base; cbn [first_converged].
  - reflexivity.
  - rewrite Hext, IH. reflexivity.
Qed.

(** The health verdict does not depend on the order in which the API lists
    the nodes: two clusters whose listings are permutations of each other
    make [k8s_nodes_ready] return the same result after the same number of
    listings. *)
Theorem ready_ignores_listing_order (cluster cluster' : Cluster) (clock : Clock)
  (max_retry wait : Z) (w w' : World) :
  list_calls w = list_calls w' ->
  (forall i, Permutation (list_node_items cluster i) (list_node_items cluster' i)) ->
  snd (k8s_nodes_ready cluster clock max_retry wait w)
    = snd (k8s_nodes_ready cluster' clock max_retry wait w')
  /\ fetches (k8s_nodes_ready cluster clock max_retry wait) w
     = fetches (k8s_nodes_ready cluster' clock max_retry wait) w'.
Proof.
  intros Hcalls Hperm. unfold fetches.
  destruct (k8s_nodes_ready_run cluster clock max_retry wait w) as [w1 [-> Hc1]].
  destruct (k8s_nodes_ready_run cluster' clock max_retry wait w') as [w2 [-> Hc2]].
  cbn [fst snd].
  rewrite (first_converged_ext snapshot_healthy (list_node_items cluster)
             (list_node_items cluster')
             (attempts (sleep_error clock wait) (budget max_retry))) in *
    by (intros i; apply snapshot_healthy_permutation, Hperm).
  rewrite Hcalls in *.
  split; [reflexivity|].
  destruct (first_converged _ _ _ _); lia.
Qed.

Lemma ready_ignores_listing_order_witness :
  snd (k8s_nodes_ready cluster_flapping_first clock_int64 4 5 world0)
    = snd (k8s_nodes_ready cluster_flapping_last clock_int64 4 5 world0)
  /\ fetches (k8s_nodes_ready cluster_flapping_first clock_int64 4 5) world0
     = fetches (k8s_nodes_ready cluster_flapping_last clock_int64 4 5) world0.
Proof.
  apply (ready_ignores_listing_order cluster_flapping_first cluster_flapping_last
           clock_int64 4 5 world0 world0).
  - reflexivity.
  - intros i. apply perm_swap.
Defined.

(** A wait that [time.sleep] refuses, a negative one for instance, ends a
    poll at its first attempt: when that attempt does not converge the call
    raises the error of [time.sleep] after a single listing, whatever the
    retry bound allows. *)
Theorem refused_wait_ends_poll (cluster : Cluster) (clock : Clock)
  (desired_node_count max_retry wait : Z) (e : PyErr) (w : World) :
  sleep_error clock wait = Some e ->
  2 <= max_retry ->
  (listed_length cluster w 0 <> desired_node_count ->
   snd (k8s_nodes_count cluster clock desired_node_count max_retry wait w) = Raise e
   /\ fetches (k8s_nodes_count cluster clock desired_node_count max_retry wait) w
      = 1%nat)
  /\ (snapshot_healthy (list_node_items cluster (list_calls w)) = false ->
      snd (k8s_nodes_ready cluster clock max_retry wait w) = Raise e
      /\ fetches (k8s_nodes_ready cluster clock max_retry wait) w = 1%nat).
Proof.
  intros Hnap Hmax. unfold fetches, listed_length. rewrite Nat.add_0_r.
  destruct (budget_pos max_retry ltac:(lia)) as [k [Hk _]].
  split; intros Hfail.
  - destruct (k8s_nodes_count_run cluster clock desired_node_count max_retry wait w)
      as [w' [-> Hcalls]].
    rewrite Hnap, Hk in *. cbn [attempts first_converged fst snd] in *.
    unfold count_reached in *. rewrite (proj2 (Z.eqb_neq _ _) Hfail) in *.
    split; [reflexivity | lia].
  - destruct (k8s_nodes_ready_run cluster clock max_retry wait w) as [w' [-> Hcalls]].
    rewrite Hnap, Hk in *. cbn [attempts first_converged fst snd] in *.
    rewrite Hfail in *. split; [reflexivity | lia].
Qed.

Lemma refused_wait_ends_poll_witness :
  snd (k8s_nodes_count cluster_four clock_any 5 3 (-1) world0)
    = Raise (ValueError "sleep length must be non-negative")
  /\ fetches (k8s_nodes_count cluster_four clock_any 5 3 (-1)) world0 = 1%nat.
Proof.
  apply (refused_wait_ends_poll cluster_four clock_any 5 3 (-1)
           (ValueError "sleep length must be non-negative") world0).
  - reflexivity.
  - lia.
  - vm_compute. discriminate.
Defined.
